(** * Ursly VFS desktop: metrics sampling, rolling history and threshold alerts

    A shallow embedding of the alerting and history logic of
    [apps/vfs-desktop/src/pages/MetricsPage.tsx]:

    - [loadThresholds] / [saveThresholds] / [DEFAULT_THRESHOLDS],
    - [checkThresholds] (the stateful alert evaluator over [alertedRef]),
    - the [setHistoricalData] updater of [fetchMetrics] (rolling history),
    - [fetchMetrics], the polling [useEffect] and [handleSaveThresholds].

    A JavaScript [number] is an IEEE 754 binary64 value; it is modelled by
    Rocq's primitive [float], whose operations are exactly the binary64 ones,
    so that [thresholds.cpu * 0.9] computes here what it computes in the
    program.  The [Set<string>] held by [alertedRef] is a [gset string]. *)

From Stdlib Require Import Floats.
From stdpp Require Import base option list gmap strings pretty.

(* A decimal literal such as 0.9 denotes the nearest binary64 value, as it
   does in JavaScript. *)
Set Warnings "-inexact-float,-register-all,-clear-no-such-hyp".

(* ====================================================================== *)
(** ** JavaScript numbers *)
(* ====================================================================== *)

Module Js.

Abbreviation number := float.

(** [a >= b], [a < b], [a > b]: IEEE comparisons, false on NaN. *)
Definition ge (a b : number) : bool := PrimFloat.leb b a.
Definition lt (a b : number) : bool := PrimFloat.ltb a b.
Definition gt (a b : number) : bool := PrimFloat.ltb b a.

(** Truthiness of a [number | null]: [null], [0], [-0] and [NaN] are falsy. *)
Definition truthy (v : option number) : bool :=
  match v with
  | None => false
  | Some x => negb (PrimFloat.is_zero x) && negb (PrimFloat.is_nan x)
  end.

(** [v ?? d] on a [number | null | undefined]. *)
Definition nullish (v : option number) (d : number) : number :=
  match v with Some x => x | None => d end.

(** [arr.slice(-n)]: the last [n] elements, the whole array when it is
    shorter ([max (len - n) 0] is the first index kept). *)
Definition slice_last {A} (n : nat) (arr : list A) : list A :=
  drop (length arr - n) arr.

End Js.

Infix ">=?" := Js.ge (at level 70, no associativity) : float_scope.
Infix ">?" := Js.gt (at level 70, no associativity) : float_scope.

(* ====================================================================== *)
(** ** Types matching the backend *)
(* ====================================================================== *)

Record GpuInfo := {
  info_id : Js.number;
  info_name : string;
  info_vendor : string;
  info_memory_total_mb : Js.number;
}.

Record GpuMetrics := {
  gpu_utilization : Js.number;
  gpu_memory_used_mb : Js.number;
  gpu_memory_total_mb : Js.number;
  memory_utilization : Js.number;
  temperature_celsius : option Js.number;
  power_usage_watts : option Js.number;
  power_limit_watts : option Js.number;
  fan_speed_percent : option Js.number;
  clock_speed_mhz : option Js.number;
  memory_clock_mhz : option Js.number;
  pcie_throughput_tx_mbps : option Js.number;
  pcie_throughput_rx_mbps : option Js.number;
  encoder_utilization : option Js.number;
  decoder_utilization : option Js.number;
}.

Record SystemMetrics := {
  cpu_usage : Js.number;
  per_core_usage : list Js.number;
  memory_used_mb : Js.number;
  memory_total_mb : Js.number;
  memory_usage_percent : Js.number;
  swap_used_mb : Js.number;
  swap_total_mb : Js.number;
  disk_read_bytes_sec : Js.number;
  disk_write_bytes_sec : Js.number;
  network_rx_bytes_sec : Js.number;
  network_tx_bytes_sec : Js.number;
  load_average : Js.number * Js.number * Js.number;
  uptime_seconds : Js.number;
}.

Record GpuWithMetrics := {
  info : GpuInfo;
  current : GpuMetrics;
  history : list GpuMetrics;
}.

Record AllMetrics := {
  gpus : list GpuWithMetrics;
  system : SystemMetrics;
}.

(* ====================================================================== *)
(** ** Threshold configuration *)
(* ====================================================================== *)

Record ThresholdConfig := {
  th_cpu : Js.number;
  th_memory : Js.number;
  th_swap : Js.number;
  th_gpu : Js.number;
  th_gpuMemory : Js.number;
  th_temperature : Js.number;
  th_diskIO : Js.number;
  th_networkIO : Js.number;
}.

Definition DEFAULT_THRESHOLDS : ThresholdConfig := {|
  th_cpu := 90;
  th_memory := 85;
  th_swap := 75;
  th_gpu := 90;
  th_gpuMemory := 90;
  th_temperature := 85;
  th_diskIO := 500;
  th_networkIO := 100;
|}.

(* ====================================================================== *)
(** ** Toasts and the evaluator's effects *)
(* ====================================================================== *)

Module Toast.
Inductive ToastType := warning | error.
End Toast.

(** A template literal [`${prefix}${value.toFixed(0)}${suffix}`], kept
    unrendered. *)
Record Message := {
  msg_prefix : string;
  msg_value : Js.number;
  msg_suffix : string;
}.

Record ToastOptions := {
  type : Toast.ToastType;
  message : Message;
  duration : Js.number;
}.

(** [checkThresholds] reads and mutates the set behind [alertedRef.current]
    and calls [showToast]; both are threaded through a small state monad
    whose state is the set together with the toasts shown so far. *)
Module Fx.

Record World := {
  alerts : gset string;
  shown : list ToastOptions;
}.

Definition M (A : Type) : Type := World -> A * World.

Definition ret {A} (a : A) : M A := fun w => (a, w).
Definition bind {A B} (m : M A) (k : A -> M B) : M B :=
  fun w => let '(a, w') := m w in k a w'.

Definition has (k : string) : M bool :=
  fun w => (bool_decide (k ∈ alerts w), w).
Definition add (k : string) : M unit :=
  fun w => (tt, {| alerts := {[k]} ∪ alerts w; shown := shown w |}).
Definition delete (k : string) : M unit :=
  fun w => (tt, {| alerts := alerts w ∖ {[k]}; shown := shown w |}).
Definition showToast (t : ToastOptions) : M unit :=
  fun w => (tt, {| alerts := alerts w; shown := shown w ++ [t] |}).

(** [arr.forEach((x, i) => body)]. *)
Fixpoint forEach_from {A} (i : nat) (arr : list A) (body : A -> nat -> M unit)
  : M unit :=
  match arr with
  | [] => ret tt
  | x :: rest => bind (body x i) (fun _ => forEach_from (S i) rest body)
  end.
Definition forEach {A} (arr : list A) (body : A -> nat -> M unit) : M unit :=
  forEach_from 0 arr body.

Definition exec (m : M unit) (w : World) : World := snd (m w).

End Fx.

Declare Scope fx_scope.
Delimit Scope fx_scope with fx.
Notation "x <- m ;; k" := (Fx.bind m (fun x => k))
  (at level 100, m at next level, right associativity) : fx_scope.
Notation "m ;; k" := (Fx.bind m (fun _ => k))
  (at level 100, right associativity) : fx_scope.
Open Scope fx_scope.

(* ====================================================================== *)
(** ** checkThresholds *)
(* ====================================================================== *)

Definition swapPercent (data : AllMetrics) : Js.number :=
  if (swap_total_mb (system data) >? 0)%float
  then (swap_used_mb (system data) / swap_total_mb (system data) * 100)%float
  else 0%float.

(** CPU Alert *)
Definition checkCpu (thresholds : ThresholdConfig) (data : AllMetrics)
  : Fx.M unit :=
  active <- Fx.has "cpu";;
  if (cpu_usage (system data) >=? th_cpu thresholds)%float && negb active then
    Fx.showToast {| type := Toast.warning;
                      message := {| msg_prefix := "CPU critical: ";
                                    msg_value := cpu_usage (system data);
                                    msg_suffix := "%" |};
                      duration := 5000 |};;
    Fx.add "cpu"
  else if Js.lt (cpu_usage (system data)) (th_cpu thresholds * 0.9)%float then
    Fx.delete "cpu"
  else Fx.ret tt.

(** Memory Alert *)
Definition checkMemory (thresholds : ThresholdConfig) (data : AllMetrics)
  : Fx.M unit :=
  active <- Fx.has "memory";;
  if (memory_usage_percent (system data) >=? th_memory thresholds)%float
     && negb active then
    Fx.showToast {| type := Toast.warning;
                      message := {| msg_prefix := "Memory critical: ";
                                    msg_value := memory_usage_percent (system data);
                                    msg_suffix := "%" |};
                      duration := 5000 |};;
    Fx.add "memory"
  else if Js.lt (memory_usage_percent (system data))
                (th_memory thresholds * 0.9)%float then
    Fx.delete "memory"
  else Fx.ret tt.

(** Swap Alert *)
Definition checkSwap (thresholds : ThresholdConfig) (data : AllMetrics)
  : Fx.M unit :=
  active <- Fx.has "swap";;
  if (swapPercent data >=? th_swap thresholds)%float && negb active then
    Fx.showToast {| type := Toast.warning;
                      message := {| msg_prefix := "Swap critical: ";
                                    msg_value := swapPercent data;
                                    msg_suffix := "%" |};
                      duration := 5000 |};;
    Fx.add "swap"
  else if Js.lt (swapPercent data) (th_swap thresholds * 0.9)%float then
    Fx.delete "swap"
  else Fx.ret tt.

(** The keys [`gpu-${i}`], [`gpuMem-${i}`], [`temp-${i}`]: [i] is the
    position of the device in [data.gpus]. *)
Definition gpuKey (i : nat) : string := "gpu-" +:+ pretty i.
Definition gpuMemKey (i : nat) : string := "gpuMem-" +:+ pretty i.
Definition tempKey (i : nat) : string := "temp-" +:+ pretty i.

(** GPU utilization, first block of the [forEach] callback. *)
Definition checkGpuUtil (thresholds : ThresholdConfig) (gpu : GpuWithMetrics)
    (i : nat) : Fx.M unit :=
  active <- Fx.has (gpuKey i);;
  if (gpu_utilization (current gpu) >=? th_gpu thresholds)%float
     && negb active then
    Fx.showToast {| type := Toast.warning;
                      message := {| msg_prefix := "GPU at ";
                                    msg_value := gpu_utilization (current gpu);
                                    msg_suffix := "%" |};
                      duration := 5000 |};;
    Fx.add (gpuKey i)
  else if Js.lt (gpu_utilization (current gpu)) (th_gpu thresholds * 0.9)%float then
    Fx.delete (gpuKey i)
  else Fx.ret tt.

(** GPU Memory *)
Definition checkGpuMem (thresholds : ThresholdConfig) (gpu : GpuWithMetrics)
    (i : nat) : Fx.M unit :=
  active <- Fx.has (gpuMemKey i);;
  if (memory_utilization (current gpu) >=? th_gpuMemory thresholds)%float
     && negb active then
    Fx.showToast {| type := Toast.warning;
                      message := {| msg_prefix := "GPU VRAM at ";
                                    msg_value := memory_utilization (current gpu);
                                    msg_suffix := "%" |};
                      duration := 5000 |};;
    Fx.add (gpuMemKey i)
  else if Js.lt (memory_utilization (current gpu))
                (th_gpuMemory thresholds * 0.9)%float then
    Fx.delete (gpuMemKey i)
  else Fx.ret tt.

(** Temperature.  [temperature_celsius] is a [number | null]: the first
    conjunct of each condition is its truthiness.  Inside the first branch
    the reading is truthy, hence present, and [Js.nullish _ 0] is that
    reading. *)
Definition checkTemp (thresholds : ThresholdConfig) (gpu : GpuWithMetrics)
    (i : nat) : Fx.M unit :=
  let temp := temperature_celsius (current gpu) in
  active <- Fx.has (tempKey i);;
  if Js.truthy temp
     && match temp with
        | Some c => (c >=? th_temperature thresholds)%float
        | None => false
        end
     && negb active then
    Fx.showToast {| type := Toast.error;
                      message := {| msg_prefix := "GPU temp: ";
                                    msg_value := Js.nullish temp 0;
                                    msg_suffix := "°C" |};
                      duration := 5000 |};;
    Fx.add (tempKey i)
  else if negb (Js.truthy temp)
          || match temp with
             | Some c => Js.lt c (th_temperature thresholds * 0.9)%float
             | None => false
             end then
    Fx.delete (tempKey i)
  else Fx.ret tt.

Definition checkGpu (thresholds : ThresholdConfig) (gpu : GpuWithMetrics)
    (i : nat) : Fx.M unit :=
  checkGpuUtil thresholds gpu i;;
  checkGpuMem thresholds gpu i;;
  checkTemp thresholds gpu i.

Definition checkThresholds (thresholds : ThresholdConfig) (data : AllMetrics)
  : Fx.M unit :=
  checkCpu thresholds data;;
  checkMemory thresholds data;;
  checkSwap thresholds data;;
  (* GPU Alerts *)
  Fx.forEach (gpus data) (checkGpu thresholds).

(* ====================================================================== *)
(** ** Rolling history: the [setHistoricalData] updater of [fetchMetrics] *)
(* ====================================================================== *)

Record HistoricalData := {
  h_cpu : list Js.number;
  h_memory : list Js.number;
  h_swap : list Js.number;
  h_gpu : list Js.number;
  h_gpuMem : list Js.number;
  h_gpuTemp : list Js.number;
  h_diskRead : list Js.number;
  h_diskWrite : list Js.number;
  h_netRx : list Js.number;
  h_netTx : list Js.number;
}.

(** The initial [useState] value. *)
Definition emptyHistory : HistoricalData := {|
  h_cpu := []; h_memory := []; h_swap := []; h_gpu := []; h_gpuMem := [];
  h_gpuTemp := []; h_diskRead := []; h_diskWrite := []; h_netRx := [];
  h_netTx := [];
|}.

(** [[...prev.slice(-59), v]]. *)
Definition pushSample (prev : list Js.number) (v : Js.number) : list Js.number :=
  Js.slice_last 59 prev ++ [v].

(** [(prev) => ({ cpu: [...prev.cpu.slice(-59), data.system.cpu_usage], ... })]
    with [const gpu = data.gpus[0]]. *)
Definition updateHistoricalData (data : AllMetrics) (prev : HistoricalData)
  : HistoricalData :=
  let gpu := gpus data !! 0%nat in
  {| h_cpu := pushSample (h_cpu prev) (cpu_usage (system data));
     h_memory := pushSample (h_memory prev) (memory_usage_percent (system data));
     h_swap := pushSample (h_swap prev) (swapPercent data);
     h_gpu := pushSample (h_gpu prev)
                (Js.nullish (gpu_utilization ∘ current <$> gpu) 0);
     h_gpuMem := pushSample (h_gpuMem prev)
                   (Js.nullish (memory_utilization ∘ current <$> gpu) 0);
     h_gpuTemp := pushSample (h_gpuTemp prev)
                    (Js.nullish (gpu ≫= temperature_celsius ∘ current) 0);
     h_diskRead := pushSample (h_diskRead prev) (disk_read_bytes_sec (system data));
     h_diskWrite := pushSample (h_diskWrite prev) (disk_write_bytes_sec (system data));
     h_netRx := pushSample (h_netRx prev) (network_rx_bytes_sec (system data));
     h_netTx := pushSample (h_netTx prev) (network_tx_bytes_sec (system data)) |}.

(* ====================================================================== *)
(** ** Persisted thresholds: [loadThresholds], [saveThresholds] *)
(* ====================================================================== *)

(** A string value is a sequence of UTF-16 code units. *)
Definition CodeUnit := N.

(** What [JSON.parse] can return. *)
Inductive JsValue :=
| JNull
| JBool (b : bool)
| JNumber (n : Js.number)
| JString (units : list CodeUnit)
| JArray (items : list JsValue)
| JObject (props : gmap string JsValue).

(** The own enumerable properties an object spread [{...v}] copies:
    the properties of an object, the indices of an array, the indices of
    the code units of a string (each holding the string of that one code
    unit), nothing for [null], a boolean or a number. *)
Definition ownProps (v : JsValue) : gmap string JsValue :=
  match v with
  | JObject props => props
  | JArray items =>
      list_to_map (imap (fun i x => (pretty i, x)) items)
  | JString units =>
      list_to_map (imap (fun i u => (pretty i, JString [u])) units)
  | JNull | JBool _ | JNumber _ => ∅
  end.

(** [{ ...a, ...b }]: the properties of [b] override those of [a]. *)
Definition spread (a b : gmap string JsValue) : gmap string JsValue := b ∪ a.

(** A [ThresholdConfig] as the object it is at run time. *)
Definition configObject (c : ThresholdConfig) : gmap string JsValue :=
  list_to_map
    [ ("cpu", JNumber (th_cpu c));
      ("memory", JNumber (th_memory c));
      ("swap", JNumber (th_swap c));
      ("gpu", JNumber (th_gpu c));
      ("gpuMemory", JNumber (th_gpuMemory c));
      ("temperature", JNumber (th_temperature c));
      ("diskIO", JNumber (th_diskIO c));
      ("networkIO", JNumber (th_networkIO c)) ].

Definition thresholdKeys : list string :=
  ["cpu"; "memory"; "swap"; "gpu"; "gpuMemory"; "temperature"; "diskIO";
   "networkIO"].

(** Reading the loaded object at type [ThresholdConfig]: defined when every
    field holds a number. *)
Definition numberProp (o : gmap string JsValue) (k : string) : option Js.number :=
  match o !! k with Some (JNumber n) => Some n | _ => None end.

Definition asThresholdConfig (o : gmap string JsValue) : option ThresholdConfig :=
  cpu ← numberProp o "cpu";
  memory ← numberProp o "memory";
  swap ← numberProp o "swap";
  gpu ← numberProp o "gpu";
  gpuMemory ← numberProp o "gpuMemory";
  temperature ← numberProp o "temperature";
  diskIO ← numberProp o "diskIO";
  networkIO ← numberProp o "networkIO";
  Some {| th_cpu := cpu; th_memory := memory; th_swap := swap; th_gpu := gpu;
          th_gpuMemory := gpuMemory; th_temperature := temperature;
          th_diskIO := diskIO; th_networkIO := networkIO |}.

(** [window.localStorage]: [getItem] and [setItem] throw when the storage
    cannot be accessed; [setItem] also throws when the quota is exceeded. *)
Record LocalStorage := {
  accessible : bool;
  quotaExceeded : bool;
  items : gmap string string;
}.

Definition getItem (ls : LocalStorage) (key : string) : option (option string) :=
  if accessible ls then Some (items ls !! key) else None.

Definition setItem (ls : LocalStorage) (key value : string) : option LocalStorage :=
  if accessible ls && negb (quotaExceeded ls)
  then Some {| accessible := accessible ls;
               quotaExceeded := quotaExceeded ls;
               items := <[key := value]> (items ls) |}
  else None.

Definition STORAGE_KEY : string := "ursly-metric-thresholds".

Section Persistence.

(** The runtime's [JSON.parse] ([None]: it throws a [SyntaxError]) and
    [JSON.stringify] on a threshold configuration. *)
Variable JSON_parse : string -> option JsValue.
Variable JSON_stringify : ThresholdConfig -> string.

Definition loadThresholds (ls : LocalStorage) : gmap string JsValue :=
  match getItem ls STORAGE_KEY with
  | Some (Some saved) =>
      if bool_decide (saved ≠ "") then
        match JSON_parse saved with
        | Some parsed => spread (configObject DEFAULT_THRESHOLDS) (ownProps parsed)
        | None => (* catch: ignore *) configObject DEFAULT_THRESHOLDS
        end
      else configObject DEFAULT_THRESHOLDS
  | Some None => configObject DEFAULT_THRESHOLDS
  | None => (* catch: ignore *) configObject DEFAULT_THRESHOLDS
  end.

Definition saveThresholds (thresholds : ThresholdConfig) (ls : LocalStorage)
  : LocalStorage :=
  match setItem ls STORAGE_KEY (JSON_stringify thresholds) with
  | Some ls' => ls'
  | None => (* catch: ignore *) ls
  end.

End Persistence.

(* ====================================================================== *)
(** ** The MetricsPage component: state, [fetchMetrics], polling effect *)
(* ====================================================================== *)

(** What [await invokeTauri('get_all_metrics')] settles with: the metrics,
    or a thrown value, which is an [Error] with a message or anything else. *)
Inductive Thrown :=
| ErrorObject (msg : string)
| OtherValue.

Inductive Settled :=
| Resolved (data : AllMetrics)
| Rejected (reason : Thrown).

(** The component's state together with what its callbacks reach: the
    [useState] cells (but [isSettingsOpen], which no callback below reads),
    the set behind [alertedRef], the toasts handed to [showToast],
    [localStorage], whether the timer registered by [setInterval] is live,
    and the calls of [fetchMetrics] that are waiting on [invokeTauri].  A
    waiting call runs the [checkThresholds] it closed over, that is, with
    the thresholds of the render that created it. *)
Record Page := {
  metrics : option AllMetrics;
  error : option string;
  sessionUptime : Js.number;
  thresholds : ThresholdConfig;
  alertedRef : gset string;
  historicalData : HistoricalData;
  toasts : list ToastOptions;
  localStorage : LocalStorage;
  interval : bool;
  pending : list ThresholdConfig;
}.

Definition initialPage (loaded : ThresholdConfig) (ls : LocalStorage) : Page := {|
  metrics := None;
  error := None;
  sessionUptime := 0;
  thresholds := loaded;
  alertedRef := ∅;
  historicalData := emptyHistory;
  toasts := [];
  localStorage := ls;
  interval := false;
  pending := [];
|}.

Definition setMetrics (v : option AllMetrics) (p : Page) : Page :=
  {| metrics := v; error := error p; sessionUptime := sessionUptime p;
     thresholds := thresholds p; alertedRef := alertedRef p;
     historicalData := historicalData p; toasts := toasts p;
     localStorage := localStorage p; interval := interval p;
     pending := pending p |}.

Definition setError (v : option string) (p : Page) : Page :=
  {| metrics := metrics p; error := v; sessionUptime := sessionUptime p;
     thresholds := thresholds p; alertedRef := alertedRef p;
     historicalData := historicalData p; toasts := toasts p;
     localStorage := localStorage p; interval := interval p;
     pending := pending p |}.

Definition setSessionUptime (f : Js.number -> Js.number) (p : Page) : Page :=
  {| metrics := metrics p; error := error p;
     sessionUptime := f (sessionUptime p);
     thresholds := thresholds p; alertedRef := alertedRef p;
     historicalData := historicalData p; toasts := toasts p;
     localStorage := localStorage p; interval := interval p;
     pending := pending p |}.

Definition setThresholds (v : ThresholdConfig) (p : Page) : Page :=
  {| metrics := metrics p; error := error p; sessionUptime := sessionUptime p;
     thresholds := v; alertedRef := alertedRef p;
     historicalData := historicalData p; toasts := toasts p;
     localStorage := localStorage p; interval := interval p;
     pending := pending p |}.

Definition setHistoricalData (f : HistoricalData -> HistoricalData) (p : Page)
  : Page :=
  {| metrics := metrics p; error := error p; sessionUptime := sessionUptime p;
     thresholds := thresholds p; alertedRef := alertedRef p;
     historicalData := f (historicalData p); toasts := toasts p;
     localStorage := localStorage p; interval := interval p;
     pending := pending p |}.

Definition withLocalStorage (f : LocalStorage -> LocalStorage) (p : Page) : Page :=
  {| metrics := metrics p; error := error p; sessionUptime := sessionUptime p;
     thresholds := thresholds p; alertedRef := alertedRef p;
     historicalData := historicalData p; toasts := toasts p;
     localStorage := f (localStorage p); interval := interval p;
     pending := pending p |}.

Definition withInterval (b : bool) (p : Page) : Page :=
  {| metrics := metrics p; error := error p; sessionUptime := sessionUptime p;
     thresholds := thresholds p; alertedRef := alertedRef p;
     historicalData := historicalData p; toasts := toasts p;
     localStorage := localStorage p; interval := b;
     pending := pending p |}.

Definition withPending (f : list ThresholdConfig -> list ThresholdConfig)
    (p : Page) : Page :=
  {| metrics := metrics p; error := error p; sessionUptime := sessionUptime p;
     thresholds := thresholds p; alertedRef := alertedRef p;
     historicalData := historicalData p; toasts := toasts p;
     localStorage := localStorage p; interval := interval p;
     pending := f (pending p) |}.

(** [alertedRef.current.clear()]. *)
Definition clearAlerted (p : Page) : Page :=
  {| metrics := metrics p; error := error p; sessionUptime := sessionUptime p;
     thresholds := thresholds p; alertedRef := ∅;
     historicalData := historicalData p; toasts := toasts p;
     localStorage := localStorage p; interval := interval p;
     pending := pending p |}.

(** [checkThresholds(data)] run by the component: on the set behind
    [alertedRef] and the toast sink. *)
Definition runCheckThresholds (closedOver : ThresholdConfig) (data : AllMetrics)
    (p : Page) : Page :=
  let w := Fx.exec (checkThresholds closedOver data)
             {| Fx.alerts := alertedRef p; Fx.shown := toasts p |} in
  {| metrics := metrics p; error := error p; sessionUptime := sessionUptime p;
     thresholds := thresholds p; alertedRef := Fx.alerts w;
     historicalData := historicalData p; toasts := Fx.shown w;
     localStorage := localStorage p; interval := interval p;
     pending := pending p |}.

(** [fetchMetrics], up to its [await]: the request is issued. *)
Definition fetchMetrics_call (p : Page) : Page :=
  withPending (fun q => q ++ [thresholds p]) p.

(** [fetchMetrics], the rest of the [try] block once the request resolved. *)
Definition fetchMetrics_then (closedOver : ThresholdConfig) (data : AllMetrics)
    (p : Page) : Page :=
  let p := setMetrics (Some data) p in
  let p := setError None p in
  let p := setSessionUptime (fun prev => (prev + 2)%float) p in
  let p := runCheckThresholds closedOver data p in
  setHistoricalData (updateHistoricalData data) p.

(** [fetchMetrics], the [catch] block. *)
Definition fetchMetrics_catch (err : Thrown) (p : Page) : Page :=
  setError (Some match err with
                 | ErrorObject msg => msg
                 | OtherValue => "Failed to load metrics"
                 end) p.

(** The [i]-th waiting call of [fetchMetrics] resumes with [r]. *)
Definition settle (i : nat) (r : Settled) (p : Page) : Page :=
  match pending p !! i with
  | None => p
  | Some closedOver =>
      let p := withPending (delete i) p in
      match r with
      | Resolved data => fetchMetrics_then closedOver data p
      | Rejected err => fetchMetrics_catch err p
      end
  end.

(** The body of the polling [useEffect]. *)
Definition effect (isTauriAvailable : bool) (p : Page) : Page :=
  if negb isTauriAvailable then
    setError (Some "Metrics are only available in the desktop app") p
  else
    let p := fetchMetrics_call p in
    withInterval true p.

(** Its cleanup, [() => clearInterval(interval)], for a page that stays
    mounted: React runs it before it runs the effect again, which it does
    whenever [fetchMetrics] changes, that is, whenever the thresholds
    change.  React also runs it when the page unmounts; what else
    unmounting brings is in [advance] below. *)
Definition cleanup (p : Page) : Page := withInterval false p.

(** The timer fires: [fetchMetrics] is called, as long as the timer is
    registered. *)
Definition tick (p : Page) : Page :=
  if interval p then fetchMetrics_call p else p.

Section SaveThresholds.

Variable JSON_stringify : ThresholdConfig -> string.

Definition handleSaveThresholds (newThresholds : ThresholdConfig) (p : Page)
  : Page :=
  let p := setThresholds newThresholds p in
  let p := withLocalStorage (saveThresholds JSON_stringify newThresholds) p in
  (* Reset alerts when thresholds change *)
  clearAlerted p.

End SaveThresholds.

(* ====================================================================== *)
(** ** The evaluator read metric by metric *)
(* ====================================================================== *)

(** The metrics [checkThresholds] tracks; a per-device metric is named by
    the position [i] of its device in [data.gpus].  The thresholds [diskIO]
    and [networkIO] can be edited and saved, but [checkThresholds] has no
    block for them: disk and network throughput are not tracked. *)
Inductive Metric :=
| Cpu
| Memory
| Swap
| GpuUtil (i : nat)
| GpuMem (i : nat)
| Temp (i : nat).

Definition alertKey (m : Metric) : string :=
  match m with
  | Cpu => "cpu"
  | Memory => "memory"
  | Swap => "swap"
  | GpuUtil i => gpuKey i
  | GpuMem i => gpuMemKey i
  | Temp i => tempKey i
  end.

(** The current value of a metric in a snapshot, when there is one. *)
Definition reading (data : AllMetrics) (m : Metric) : option Js.number :=
  match m with
  | Cpu => Some (cpu_usage (system data))
  | Memory => Some (memory_usage_percent (system data))
  | Swap => Some (swapPercent data)
  | GpuUtil i => gpu_utilization ∘ current <$> gpus data !! i
  | GpuMem i => memory_utilization ∘ current <$> gpus data !! i
  | Temp i => gpus data !! i ≫= temperature_celsius ∘ current
  end.

(** Its threshold. *)
Definition limit (th : ThresholdConfig) (m : Metric) : Js.number :=
  match m with
  | Cpu => th_cpu th
  | Memory => th_memory th
  | Swap => th_swap th
  | GpuUtil _ => th_gpu th
  | GpuMem _ => th_gpuMemory th
  | Temp _ => th_temperature th
  end.

(** The severity the specification gives its alerts. *)
Definition severity (m : Metric) : Toast.ToastType :=
  match m with
  | Temp _ => Toast.error
  | _ => Toast.warning
  end.

Definition perDevice (i : nat) : list Metric := [GpuUtil i; GpuMem i; Temp i].

(** The metrics of a snapshot, in the order [checkThresholds] visits them. *)
Definition tracked (data : AllMetrics) : list Metric :=
  [Cpu; Memory; Swap] ++ (seq 0 (length (gpus data)) ≫= perDevice).

(** Every block of [checkThresholds] has one shape: a key, the condition
    that raises the alert when the key is not active, the condition that
    deletes the key otherwise, and the toast. *)
Record Block := {
  b_key : string;
  b_fire : bool;
  b_clear : bool;
  b_toast : ToastOptions;
}.

Definition runBlock (b : Block) : Fx.M unit :=
  active <- Fx.has (b_key b);;
  if b_fire b && negb active then
    Fx.showToast (b_toast b);;
    Fx.add (b_key b)
  else if b_clear b then Fx.delete (b_key b)
  else Fx.ret tt.

Definition cpuBlock (th : ThresholdConfig) (data : AllMetrics) : Block := {|
  b_key := "cpu";
  b_fire := (cpu_usage (system data) >=? th_cpu th)%float;
  b_clear := Js.lt (cpu_usage (system data)) (th_cpu th * 0.9)%float;
  b_toast := {| type := Toast.warning;
                message := {| msg_prefix := "CPU critical: ";
                              msg_value := cpu_usage (system data);
                              msg_suffix := "%" |};
                duration := 5000 |};
|}.

Definition memoryBlock (th : ThresholdConfig) (data : AllMetrics) : Block := {|
  b_key := "memory";
  b_fire := (memory_usage_percent (system data) >=? th_memory th)%float;
  b_clear := Js.lt (memory_usage_percent (system data)) (th_memory th * 0.9)%float;
  b_toast := {| type := Toast.warning;
                message := {| msg_prefix := "Memory critical: ";
                              msg_value := memory_usage_percent (system data);
                              msg_suffix := "%" |};
                duration := 5000 |};
|}.

Definition swapBlock (th : ThresholdConfig) (data : AllMetrics) : Block := {|
  b_key := "swap";
  b_fire := (swapPercent data >=? th_swap th)%float;
  b_clear := Js.lt (swapPercent data) (th_swap th * 0.9)%float;
  b_toast := {| type := Toast.warning;
                message := {| msg_prefix := "Swap critical: ";
                              msg_value := swapPercent data;
                              msg_suffix := "%" |};
                duration := 5000 |};
|}.

Definition gpuUtilBlock (th : ThresholdConfig) (gpu : GpuWithMetrics) (i : nat)
  : Block := {|
  b_key := gpuKey i;
  b_fire := (gpu_utilization (current gpu) >=? th_gpu th)%float;
  b_clear := Js.lt (gpu_utilization (current gpu)) (th_gpu th * 0.9)%float;
  b_toast := {| type := Toast.warning;
                message := {| msg_prefix := "GPU at ";
                              msg_value := gpu_utilization (current gpu);
                              msg_suffix := "%" |};
                duration := 5000 |};
|}.

Definition gpuMemBlock (th : ThresholdConfig) (gpu : GpuWithMetrics) (i : nat)
  : Block := {|
  b_key := gpuMemKey i;
  b_fire := (memory_utilization (current gpu) >=? th_gpuMemory th)%float;
  b_clear := Js.lt (memory_utilization (current gpu)) (th_gpuMemory th * 0.9)%float;
  b_toast := {| type := Toast.warning;
                message := {| msg_prefix := "GPU VRAM at ";
                              msg_value := memory_utilization (current gpu);
                              msg_suffix := "%" |};
                duration := 5000 |};
|}.

Definition tempBlock (th : ThresholdConfig) (gpu : GpuWithMetrics) (i : nat)
  : Block :=
  let temp := temperature_celsius (current gpu) in {|
  b_key := tempKey i;
  b_fire := Js.truthy temp
            && match temp with
               | Some c => (c >=? th_temperature th)%float
               | None => false
               end;
  b_clear := negb (Js.truthy temp)
             || match temp with
                | Some c => Js.lt c (th_temperature th * 0.9)%float
                | None => false
                end;
  b_toast := {| type := Toast.error;
                message := {| msg_prefix := "GPU temp: ";
                              msg_value := Js.nullish temp 0;
                              msg_suffix := "°C" |};
                duration := 5000 |};
|}.

Definition blockOf (th : ThresholdConfig) (data : AllMetrics) (m : Metric)
  : option Block :=
  match m with
  | Cpu => Some (cpuBlock th data)
  | Memory => Some (memoryBlock th data)
  | Swap => Some (swapBlock th data)
  | GpuUtil i => (fun gpu => gpuUtilBlock th gpu i) <$> gpus data !! i
  | GpuMem i => (fun gpu => gpuMemBlock th gpu i) <$> gpus data !! i
  | Temp i => (fun gpu => tempBlock th gpu i) <$> gpus data !! i
  end.

(** Whether the block of [m] raises its alert from the active set [A], the
    toasts it then shows, and whether its key is active afterwards. *)
Definition fires (th : ThresholdConfig) (data : AllMetrics) (A : gset string)
    (m : Metric) : bool :=
  match blockOf th data m with
  | Some b => b_fire b && bool_decide (alertKey m ∉ A)
  | None => false
  end.

Definition eventsOf (th : ThresholdConfig) (data : AllMetrics) (A : gset string)
    (m : Metric) : list ToastOptions :=
  match blockOf th data m with
  | Some b => if fires th data A m then [b_toast b] else []
  | None => []
  end.

Definition activeAfter (th : ThresholdConfig) (data : AllMetrics)
    (A : gset string) (m : Metric) : bool :=
  match blockOf th data m with
  | Some b =>
      if fires th data A m then true
      else if b_clear b then false
      else bool_decide (alertKey m ∈ A)
  | None => bool_decide (alertKey m ∈ A)
  end.

Definition stepMetric (th : ThresholdConfig) (data : AllMetrics) (m : Metric)
    (w : Fx.World) : Fx.World :=
  match blockOf th data m with
  | Some b => Fx.exec (runBlock b) w
  | None => w
  end.

(** [checkThresholds] over a stream of snapshots: the toasts of each
    evaluation and the active set after the last one. *)
Fixpoint feed (th : ThresholdConfig) (stream : list AllMetrics) (A : gset string)
  : list (list ToastOptions) * gset string :=
  match stream with
  | [] => ([], A)
  | data :: rest =>
      let w := Fx.exec (checkThresholds th data)
                 {| Fx.alerts := A; Fx.shown := [] |} in
      let '(events, A') := feed th rest (Fx.alerts w) in
      (Fx.shown w :: events, A')
  end.

Definition isTemperature (m : Metric) : bool :=
  match m with Temp _ => true | _ => false end.

(** The hysteresis rule of the specification, for one evaluation of [data]
    from the world [w], read for the metric [m] with current value [v]:
    - [v >= t] and the key not active: the key becomes active and exactly
      one toast of the metric's severity is shown for it;
    - [v < t * 0.9] and the key active: the key is removed, without a toast;
    - otherwise: the key's membership is unchanged, without a toast. *)
Definition HysteresisRule (th : ThresholdConfig) (data : AllMetrics)
    (w : Fx.World) (m : Metric) (v : Js.number) : Prop :=
  let t := limit th m in
  let k := alertKey m in
  let A := Fx.alerts w in
  let A' := Fx.alerts (Fx.exec (checkThresholds th data) w) in
  let events := eventsOf th data A m in
  ((v >=? t)%float = true /\ k ∉ A ->
     k ∈ A' /\ exists toast, events = [toast] /\ type toast = severity m) /\
  (Js.lt v (t * 0.9)%float = true /\ k ∈ A -> (k ∉ A') /\ events = []) /\
  (~ ((v >=? t)%float = true /\ k ∉ A) ->
   ~ (Js.lt v (t * 0.9)%float = true /\ k ∈ A) ->
     (k ∈ A' <-> k ∈ A) /\ events = []).

(** The outcome of one block for its key: raised, cleared or kept. *)
Definition hysteresis (fire clear active : bool) : bool :=
  if fire && negb active then true
  else if clear then false
  else active.

(** The ten rolling buffers of [historicalData], each with the value
    [fetchMetrics] appends to it for a snapshot. *)
Definition buffers
  : list ((HistoricalData -> list Js.number) * (AllMetrics -> Js.number)) :=
  [ (h_cpu, fun data => cpu_usage (system data));
    (h_memory, fun data => memory_usage_percent (system data));
    (h_swap, swapPercent);
    (h_gpu, fun data => Js.nullish (gpu_utilization ∘ current <$> gpus data !! 0%nat) 0);
    (h_gpuMem, fun data => Js.nullish (memory_utilization ∘ current <$> gpus data !! 0%nat) 0);
    (h_gpuTemp, fun data => Js.nullish (gpus data !! 0%nat ≫= temperature_celsius ∘ current) 0);
    (h_diskRead, fun data => disk_read_bytes_sec (system data));
    (h_diskWrite, fun data => disk_write_bytes_sec (system data));
    (h_netRx, fun data => network_rx_bytes_sec (system data));
    (h_netTx, fun data => network_tx_bytes_sec (system data)) ].

(** The history after the snapshots of [stream] were fetched in turn,
    starting from the empty history. *)
Definition historyAfter (stream : list AllMetrics) : HistoricalData :=
  foldl (fun h data => updateHistoricalData data h) emptyHistory stream.

(** One successful poll: the timer fires and the fetch it issued resolves
    before the next one. *)
Definition poll (data : AllMetrics) (p : Page) : Page :=
  let p := tick p in
  settle (length (pending p) - 1) (Resolved data) p.

(* ====================================================================== *)
(** ** Inputs of the examples *)
(* ====================================================================== *)

(** Snapshots for the examples: a quiet system with the given CPU usage,
    and a device with the given utilization, memory utilization and
    temperature. *)
Definition quietSystem (cpu : Js.number) : SystemMetrics := {|
  cpu_usage := cpu; per_core_usage := []; memory_used_mb := 0;
  memory_total_mb := 0; memory_usage_percent := 0; swap_used_mb := 0;
  swap_total_mb := 0; disk_read_bytes_sec := 0; disk_write_bytes_sec := 0;
  network_rx_bytes_sec := 0; network_tx_bytes_sec := 0;
  load_average := (0, 0, 0)%float; uptime_seconds := 0;
|}.

Definition device (deviceId utilization memory : Js.number)
    (temperature : option Js.number) : GpuWithMetrics := {|
  info := {| info_id := deviceId; info_name := "GPU"; info_vendor := "";
             info_memory_total_mb := 0 |};
  current := {| gpu_utilization := utilization; gpu_memory_used_mb := 0;
                gpu_memory_total_mb := 0; memory_utilization := memory;
                temperature_celsius := temperature; power_usage_watts := None;
                power_limit_watts := None; fan_speed_percent := None;
                clock_speed_mhz := None; memory_clock_mhz := None;
                pcie_throughput_tx_mbps := None;
                pcie_throughput_rx_mbps := None; encoder_utilization := None;
                decoder_utilization := None |};
  history := [];
|}.

Definition snapshot (cpu : Js.number) (devices : list GpuWithMetrics)
  : AllMetrics :=
  {| gpus := devices; system := quietSystem cpu |}.

Definition idle : Fx.World := {| Fx.alerts := ∅; Fx.shown := [] |}.

Definition withTemperatureLimit (t : Js.number) (th : ThresholdConfig)
  : ThresholdConfig :=
  {| th_cpu := th_cpu th; th_memory := th_memory th; th_swap := th_swap th;
     th_gpu := th_gpu th; th_gpuMemory := th_gpuMemory th;
     th_temperature := t; th_diskIO := th_diskIO th;
     th_networkIO := th_networkIO th |}.

Definition withSwapLimit (t : Js.number) (th : ThresholdConfig)
  : ThresholdConfig :=
  {| th_cpu := th_cpu th; th_memory := th_memory th; th_swap := t;
     th_gpu := th_gpu th; th_gpuMemory := th_gpuMemory th;
     th_temperature := th_temperature th; th_diskIO := th_diskIO th;
     th_networkIO := th_networkIO th |}.

(** The thresholds with the CPU limit lowered to 50, the lowest value the
    editor offers. *)
Definition lowCpuLimit : ThresholdConfig :=
  {| th_cpu := 50; th_memory := 85; th_swap := 75; th_gpu := 90;
     th_gpuMemory := 90; th_temperature := 85; th_diskIO := 500;
     th_networkIO := 100 |}.

Definition zeroTemperatureLimit : ThresholdConfig :=
  withTemperatureLimit 0 DEFAULT_THRESHOLDS.

(** A system without swap ([swap_total_mb = 0], as in [quietSystem]) and a
    swap threshold of 0. *)
Definition zeroSwapLimit : ThresholdConfig := withSwapLimit 0 DEFAULT_THRESHOLDS.

(** CPU at 95 %, one device at 50 % with 70 °C. *)
Definition busyCpu : AllMetrics := snapshot 95 [device 0 50 50 (Some 70%float)].

(** One device reading 0 °C, everything else at rest. *)
Definition freezing : AllMetrics := snapshot 0 [device 0 0 0 (Some 0%float)].

Definition noSwap : AllMetrics := snapshot 0 [].

(** One device without a temperature sensor, whose temperature alert is
    active. *)
Definition sensorless : AllMetrics := snapshot 0 [device 0 0 0 None].

Definition overheated : Fx.World :=
  {| Fx.alerts := {[tempKey 0]}; Fx.shown := [] |}.

(** Device A (identifier 7) at 95 % and device B (identifier 3) at 50 %,
    in this order and in the other one; device A alone. *)
Definition deviceA : GpuWithMetrics := device 7 95 0 None.
Definition deviceB : GpuWithMetrics := device 3 50 0 None.
Definition twoDevices : AllMetrics := snapshot 0 [deviceA; deviceB].
Definition twoDevicesSwapped : AllMetrics := snapshot 0 [deviceB; deviceA].
Definition onlyDeviceA : AllMetrics := snapshot 0 [deviceA].

Definition cpuStream (values : list Js.number) : list AllMetrics :=
  (fun v => snapshot v []) <$> values.

(** A storage that works and holds nothing. *)
Definition emptyStorage : LocalStorage :=
  {| accessible := true; quotaExceeded := false; items := ∅ |}.

(** The page once mounted in the desktop app: the first fetch is waiting
    and the timer is registered. *)
Definition mounted : Page :=
  effect true (initialPage DEFAULT_THRESHOLDS emptyStorage).

(** A page whose first device's temperature alert was raised at 90 °C. *)
Definition hot : AllMetrics := snapshot 0 [device 0 0 0 (Some 90%float)].
Definition alertedPage : Page :=
  runCheckThresholds DEFAULT_THRESHOLDS hot
    (initialPage DEFAULT_THRESHOLDS emptyStorage).

(** Stand-ins for the runtime's JSON functions in the examples: a
    serialiser that writes nothing, and a parser that knows one text. *)
Definition noText : ThresholdConfig -> string := fun _ => "".

Definition quoted (s : string) : string :=
  String (Ascii.ascii_of_nat 34) (s +:+ String (Ascii.ascii_of_nat 34) EmptyString).

(** The text [{"cpu":80,"temperature":0}]. *)
Definition savedText : string :=
  "{" +:+ quoted "cpu" +:+ ":80," +:+ quoted "temperature" +:+ ":0}".

Definition savedRecord : gmap string JsValue :=
  {[ "cpu" := JNumber 80; "temperature" := JNumber 0 ]}.

Definition parseSaved (text : string) : option JsValue :=
  if String.eqb text savedText then Some (JObject savedRecord) else None.

Definition savedStorage : LocalStorage :=
  {| accessible := true; quotaExceeded := false;
     items := {[ STORAGE_KEY := savedText ]} |}.

(** The text [{"cpu":"80","memory":null}], whose fields are a string (of
    the code units of [8] and [0]) and [null]. *)
Definition mistypedText : string :=
  "{" +:+ quoted "cpu" +:+ ":" +:+ quoted "80" +:+ "," +:+ quoted "memory"
  +:+ ":null}".

Definition mistypedRecord : gmap string JsValue :=
  {[ "cpu" := JString [56%N; 48%N]; "memory" := JNull ]}.

Definition parseMistyped (text : string) : option JsValue :=
  if String.eqb text mistypedText then Some (JObject mistypedRecord) else None.

Definition mistypedStorage : LocalStorage :=
  {| accessible := true; quotaExceeded := false;
     items := {[ STORAGE_KEY := mistypedText ]} |}.

(* ====================================================================== *)
(** ** Panel status and usage colour *)
(* ====================================================================== *)

(** The classes [good], [warning] and [critical]. *)
Module Status.
Inductive StatusClass := good | warning | critical.
End Status.

(** [threshold = 90]: the default applies when the argument is omitted. *)
Definition getUsageColor (value : Js.number) (threshold : option Js.number)
  : string :=
  let threshold := Js.nullish threshold 90 in
  if Js.lt value (threshold * 0.7)%float then "var(--success)"
  else if Js.lt value threshold then "var(--warning)"
  else "var(--error)".

Definition getStatusClass (value : Js.number) (threshold : option Js.number)
  : Status.StatusClass :=
  let threshold := Js.nullish threshold 90 in
  if Js.lt value (threshold * 0.7)%float then Status.good
  else if Js.lt value threshold then Status.warning
  else Status.critical.

(** The statuses the page computes for its panels. *)
Definition cpuStatus (thresholds : ThresholdConfig) (metrics : AllMetrics) :=
  getStatusClass (cpu_usage (system metrics)) (Some (th_cpu thresholds)).
Definition memStatus (thresholds : ThresholdConfig) (metrics : AllMetrics) :=
  getStatusClass (memory_usage_percent (system metrics))
                 (Some (th_memory thresholds)).
Definition swapStatus (thresholds : ThresholdConfig) (metrics : AllMetrics) :=
  getStatusClass (swapPercent metrics) (Some (th_swap thresholds)).
Definition gpuStatus (thresholds : ThresholdConfig) (metrics : AllMetrics) :=
  match gpus metrics !! 0%nat with
  | Some gpu => getStatusClass (gpu_utilization (current gpu))
                               (Some (th_gpu thresholds))
  | None => Status.good
  end.

(** The status of the panel of a metric, for the metrics that have one. *)
Definition panelStatus (thresholds : ThresholdConfig) (metrics : AllMetrics)
    (m : Metric) : option Status.StatusClass :=
  match m with
  | Cpu => Some (cpuStatus thresholds metrics)
  | Memory => Some (memStatus thresholds metrics)
  | Swap => Some (swapStatus thresholds metrics)
  | GpuUtil 0 => Some (gpuStatus thresholds metrics)
  | _ => None
  end.

(* ====================================================================== *)
(** ** The settings editor *)
(* ====================================================================== *)

(** [keyof ThresholdConfig]. *)
Inductive ThresholdKey :=
| key_cpu | key_memory | key_swap | key_gpu | key_gpuMemory | key_temperature
| key_diskIO | key_networkIO.

Global Instance ThresholdKey_eq_dec : EqDecision ThresholdKey.
Proof. solve_decision. Defined.

(** [config[key]]. *)
Definition getThreshold (c : ThresholdConfig) (key : ThresholdKey) : Js.number :=
  match key with
  | key_cpu => th_cpu c
  | key_memory => th_memory c
  | key_swap => th_swap c
  | key_gpu => th_gpu c
  | key_gpuMemory => th_gpuMemory c
  | key_temperature => th_temperature c
  | key_diskIO => th_diskIO c
  | key_networkIO => th_networkIO c
  end.

(** [setLocal((prev) => ({ ...prev, [key]: value }))]. *)
Definition updateThreshold (key : ThresholdKey) (value : Js.number)
    (prev : ThresholdConfig) : ThresholdConfig :=
  let pick k := if decide (k = key) then value else getThreshold prev k in
  {| th_cpu := pick key_cpu; th_memory := pick key_memory;
     th_swap := pick key_swap; th_gpu := pick key_gpu;
     th_gpuMemory := pick key_gpuMemory;
     th_temperature := pick key_temperature; th_diskIO := pick key_diskIO;
     th_networkIO := pick key_networkIO |}.

(** [setLocal(DEFAULT_THRESHOLDS)]. *)
Definition handleReset (local : ThresholdConfig) : ThresholdConfig :=
  DEFAULT_THRESHOLDS.

Record ThresholdItem := {
  item_key : ThresholdKey;
  item_label : string;
  item_unit : string;
  item_min : Js.number;
  item_max : Js.number;
  item_step : Js.number;
}.

Definition thresholdItems : list ThresholdItem :=
  [ {| item_key := key_cpu; item_label := "CPU Usage"; item_unit := "%";
       item_min := 50; item_max := 100; item_step := 5 |};
    {| item_key := key_memory; item_label := "Memory Usage"; item_unit := "%";
       item_min := 50; item_max := 100; item_step := 5 |};
    {| item_key := key_swap; item_label := "Swap Usage"; item_unit := "%";
       item_min := 25; item_max := 100; item_step := 5 |};
    {| item_key := key_gpu; item_label := "GPU Utilization"; item_unit := "%";
       item_min := 50; item_max := 100; item_step := 5 |};
    {| item_key := key_gpuMemory; item_label := "GPU Memory"; item_unit := "%";
       item_min := 50; item_max := 100; item_step := 5 |};
    {| item_key := key_temperature; item_label := "GPU Temperature";
       item_unit := "°C"; item_min := 60; item_max := 100; item_step := 5 |};
    {| item_key := key_diskIO; item_label := "Disk I/O"; item_unit := "MB/s";
       item_min := 100; item_max := 2000; item_step := 100 |};
    {| item_key := key_networkIO; item_label := "Network I/O";
       item_unit := "MB/s"; item_min := 10; item_max := 1000; item_step := 10 |} ].

(** The values a range input with a minimum, a step and a maximum can take: the
    minimum plus multiples of the step, up to the maximum. *)
Fixpoint rangeValues (fuel : nat) (v max step : Js.number) : list Js.number :=
  match fuel with
  | 0 => []
  | S fuel =>
      if (max >=? v)%float then v :: rangeValues fuel (v + step)%float max step
      else []
  end.

(** The values of the slider of a field. *)
Definition sliderValues (key : ThresholdKey) : list Js.number :=
  match list_find (fun item => item_key item = key) thresholdItems with
  | Some (_, item) =>
      rangeValues 1000 (item_min item) (item_max item) (item_step item)
  | None => []
  end.

(* ====================================================================== *)
(** ** Events of the page *)
(* ====================================================================== *)

(** What can happen to the mounted page. *)
Inductive Event :=
| RunEffect (isTauriAvailable : bool)
| RunCleanup
| TimerFires
| ClickRetry
| FetchSettles (i : nat) (r : Settled)
| SaveThresholds (newThresholds : ThresholdConfig).

Section Traces.

Variable JSON_stringify : ThresholdConfig -> string.

Definition step (e : Event) (p : Page) : Page :=
  match e with
  | RunEffect isTauriAvailable => effect isTauriAvailable p
  | RunCleanup => cleanup p
  | TimerFires => tick p
  | ClickRetry => fetchMetrics_call p
  | FetchSettles i r => settle i r p
  | SaveThresholds newThresholds =>
      handleSaveThresholds JSON_stringify newThresholds p
  end.

Definition run (trace : list Event) (p : Page) : Page :=
  foldl (fun p e => step e p) p trace.

(** The snapshots of the fetches that resolved while waiting, in the order
    they resolved. *)
Fixpoint resolved (trace : list Event) (p : Page) : list AllMetrics :=
  match trace with
  | [] => []
  | e :: rest =>
      match e with
      | FetchSettles i (Resolved data) =>
          if pending p !! i is Some _ then [data] else []
      | _ => []
      end ++ resolved rest (step e p)
  end.

(** The events that call [fetchMetrics] whether or not the timer is
    registered. *)
Definition issuesFetch (e : Event) : bool :=
  match e with
  | RunEffect _ | ClickRetry => true
  | _ => false
  end.

(** The page together with whether React has unmounted it. *)
Record Component := {
  page : Page;
  unmounted : bool;
}.

Definition mount (p : Page) : Component := {| page := p; unmounted := false |}.

(** What a callback of an unmounted page still does.  React drops the
    updates of the [useState] cells of a component it has unmounted, so
    [metrics], [error], [sessionUptime], [thresholds] and [historicalData]
    keep the values they had before the callback; the set behind
    [alertedRef], the calls of [showToast], [localStorage], the timer and
    the waiting requests are not React state and are as the callback left
    them. *)
Definition dropStateUpdates (before after : Page) : Page :=
  {| metrics := metrics before; error := error before;
     sessionUptime := sessionUptime before; thresholds := thresholds before;
     alertedRef := alertedRef after;
     historicalData := historicalData before; toasts := toasts after;
     localStorage := localStorage after; interval := interval after;
     pending := pending after |}.

(** What can happen to the component: an event of the page, or React
    unmounting it. *)
Inductive Lifecycle :=
| Happens (e : Event)
| Unmounts.

(** The events that still reach a page that has unmounted: a callback of
    the timer and the continuation of a waiting fetch.  React runs no
    effect and no cleanup on it, and its buttons and settings dialog are
    gone. *)
Definition reachesUnmounted (e : Event) : bool :=
  match e with
  | TimerFires | FetchSettles _ _ => true
  | _ => false
  end.

(** Unmounting runs the cleanup of the effect, and nothing else of the
    page's code. *)
Definition advance (l : Lifecycle) (c : Component) : Component :=
  match l with
  | Unmounts => {| page := cleanup (page c); unmounted := true |}
  | Happens e =>
      if unmounted c then
        if reachesUnmounted e then
          {| page := dropStateUpdates (page c) (step e (page c));
             unmounted := true |}
        else c
      else {| page := step e (page c); unmounted := false |}
  end.

Definition live (trace : list Lifecycle) (c : Component) : Component :=
  foldl (fun c l => advance l c) c trace.

(** The snapshots of the fetches that resolved while waiting and while the
    page was mounted, in the order they resolved. *)
Fixpoint published (trace : list Lifecycle) (c : Component) : list AllMetrics :=
  match trace with
  | [] => []
  | l :: rest =>
      match l with
      | Happens e => if unmounted c then [] else resolved [e] (page c)
      | Unmounts => []
      end ++ published rest (advance l c)
  end.

(** The events in which a snapshot is evaluated for alerts. *)
Definition evaluates (l : Lifecycle) : bool :=
  match l with
  | Happens (FetchSettles _ (Resolved _)) => true
  | _ => false
  end.

(** The events in which thresholds are saved. *)
Definition savesThresholds (l : Lifecycle) : bool :=
  match l with
  | Happens (SaveThresholds _) => true
  | _ => false
  end.

End Traces.

(* ====================================================================== *)
(** ** Vocabulary of the further properties *)
(* ====================================================================== *)

(** The entry condition and the clear condition of a metric in a snapshot:
    the first and the second condition of its block; both are false for a
    device that is not listed. *)
Definition raises (th : ThresholdConfig) (data : AllMetrics) (m : Metric) : bool :=
  from_option b_fire false (blockOf th data m).
Definition clears (th : ThresholdConfig) (data : AllMetrics) (m : Metric) : bool :=
  from_option b_clear false (blockOf th data m).

(** The thresholds [checkThresholds] reads. *)
Definition evaluatedLimits (th : ThresholdConfig) : list Js.number :=
  [th_cpu th; th_memory th; th_swap th; th_gpu th; th_gpuMemory th;
   th_temperature th].

(** The clear level [t * 0.9] of every evaluated threshold is not above
    the threshold. *)
Definition BandsOrdered (th : ThresholdConfig) : Prop :=
  Forall (fun t => (t >=? t * 0.9)%float = true) (evaluatedLimits th).

(** The active set before the [n]-th evaluation of a stream (counting
    from 0), that is, after the first [n]. *)
Definition stateAt (th : ThresholdConfig) (stream : list AllMetrics)
    (A : gset string) (n : nat) : gset string :=
  (feed th (take n stream) A).2.

(** Every field of the configuration is a value of its slider. *)
Definition OnSliders (c : ThresholdConfig) : Prop :=
  forall key, getThreshold c key ∈ sliderValues key.

(** A limit the evaluator and the panels can work with: positive, with
    its clear level [t * 0.9] and its warning level [t * 0.7] not above
    it. *)
Definition saneLimit (t : Js.number) : bool :=
  (t >? 0)%float && (t >=? t * 0.9)%float && (t >=? t * 0.7)%float.

(** The field that holds the threshold of a metric. *)
Definition limitKey (m : Metric) : ThresholdKey :=
  match m with
  | Cpu => key_cpu
  | Memory => key_memory
  | Swap => key_swap
  | GpuUtil _ => key_gpu
  | GpuMem _ => key_gpuMemory
  | Temp _ => key_temperature
  end.

(** More inputs of the examples. *)
Definition oneText : ThresholdConfig -> string := fun _ => "{}".
Definition parseAsDefaults : string -> option JsValue :=
  fun _ => Some (JObject (configObject DEFAULT_THRESHOLDS)).
Definition parseAsArray : string -> option JsValue :=
  fun _ => Some (JArray [JNumber 1; JNumber 2]).
Definition arrayStorage : LocalStorage :=
  {| accessible := true; quotaExceeded := false;
     items := {[ STORAGE_KEY := "[1,2]" ]} |}.
Definition fullStorage : LocalStorage :=
  {| accessible := true; quotaExceeded := true; items := ∅ |}.

(* ====================================================================== *)
(** * Properties *)
(* ====================================================================== *)

(** ** Comparisons of binary64 numbers *)

Lemma zero_not_ge_positive (t : Js.number) :
  (t >? 0)%float = true -> (0 >=? t)%float = false.
Proof.
  unfold Js.gt, Js.ge. rewrite FloatAxioms.ltb_spec, FloatAxioms.leb_spec.
  change (Prim2SF 0) with (S754_zero false).
  destruct (Prim2SF t) as [[]|[]| |[] m e]; cbv; congruence.
Qed.

Lemma zero_not_gt_zero (x : Js.number) :
  PrimFloat.eqb x 0 = true -> (x >? 0)%float = false.
Proof.
  unfold Js.gt. rewrite FloatAxioms.eqb_spec, FloatAxioms.ltb_spec.
  change (Prim2SF 0) with (S754_zero false).
  destruct (Prim2SF x) as [[]|[]| |[] m e]; cbv; congruence.
Qed.

(** ** The effect monad *)

Lemma exec_bind {A} (m : Fx.M A) (k : A -> Fx.M unit) (w : Fx.World) :
  Fx.exec (Fx.bind m k) w = Fx.exec (k (m w).1) (m w).2.
Proof. unfold Fx.exec, Fx.bind. by destruct (m w). Qed.

Lemma exec_seq (m k : Fx.M unit) (w : Fx.World) :
  Fx.exec (m;; k) w = Fx.exec k (Fx.exec m w).
Proof. by rewrite exec_bind. Qed.

(** ** Each block of the source is a [runBlock] *)

Lemma checkCpu_block th data : checkCpu th data = runBlock (cpuBlock th data).
Proof. reflexivity. Qed.

Lemma checkMemory_block th data :
  checkMemory th data = runBlock (memoryBlock th data).
Proof. reflexivity. Qed.

Lemma checkSwap_block th data : checkSwap th data = runBlock (swapBlock th data).
Proof. reflexivity. Qed.

Lemma checkGpuUtil_block th gpu i :
  checkGpuUtil th gpu i = runBlock (gpuUtilBlock th gpu i).
Proof. reflexivity. Qed.

Lemma checkGpuMem_block th gpu i :
  checkGpuMem th gpu i = runBlock (gpuMemBlock th gpu i).
Proof. reflexivity. Qed.

Lemma checkTemp_block th gpu i : checkTemp th gpu i = runBlock (tempBlock th gpu i).
Proof. reflexivity. Qed.

(** What a block does to the active set and to the toasts. *)
Lemma runBlock_exec (b : Block) (w : Fx.World) :
  Fx.exec (runBlock b) w =
  if b_fire b && bool_decide (b_key b ∉ Fx.alerts w)
  then {| Fx.alerts := {[b_key b]} ∪ Fx.alerts w;
          Fx.shown := Fx.shown w ++ [b_toast b] |}
  else if b_clear b
       then {| Fx.alerts := Fx.alerts w ∖ {[b_key b]}; Fx.shown := Fx.shown w |}
       else w.
Proof.
  unfold runBlock. rewrite exec_bind. cbn [Fx.has fst snd].
  rewrite <- bool_decide_not.
  destruct (b_fire b && bool_decide (b_key b ∉ Fx.alerts w)); [done|].
  by destruct (b_clear b).
Qed.

(** ** The alert keys are pairwise distinct *)

Lemma blockOf_key th data m b : blockOf th data m = Some b -> b_key b = alertKey m.
Proof.
  destruct m; simpl; try (intros [= <-]; reflexivity);
    destruct (gpus data !! i); simpl; intros [= <-]; reflexivity.
Qed.

Global Instance alertKey_inj : Inj (=) (=) alertKey.
Proof.
  intros [| | |i|i|i] [| | |j|j|j]; unfold alertKey, gpuKey, gpuMemKey, tempKey;
    intros H; try discriminate H; try reflexivity;
    apply (inj (String.append _)), (inj pretty) in H; by subst.
Qed.

(** ** One metric at a time *)

Lemma stepMetric_shown th data m w :
  Fx.shown (stepMetric th data m w) = Fx.shown w ++ eventsOf th data (Fx.alerts w) m.
Proof.
  unfold stepMetric, eventsOf, fires.
  destruct (blockOf th data m) as [b|] eqn:Hb; [|by rewrite app_nil_r].
  rewrite runBlock_exec, (blockOf_key _ _ _ _ Hb).
  destruct (b_fire b && _); [done|].
  destruct (b_clear b); by rewrite app_nil_r.
Qed.

Lemma stepMetric_alerts th data m w k :
  k ∈ Fx.alerts (stepMetric th data m w) <->
  if decide (k = alertKey m) then activeAfter th data (Fx.alerts w) m = true
  else k ∈ Fx.alerts w.
Proof.
  unfold stepMetric, activeAfter, fires.
  destruct (blockOf th data m) as [b|] eqn:Hb.
  - rewrite runBlock_exec, (blockOf_key _ _ _ _ Hb).
    destruct (b_fire b && _); [|destruct (b_clear b)]; cbn [Fx.alerts];
      case_decide; subst; rewrite ?bool_decide_eq_true; set_solver.
  - case_decide; subst; by rewrite ?bool_decide_eq_true.
Qed.

(** The outcome for [m] depends on the active set only through [m]'s key. *)
Lemma fires_key th data A A' m :
  (alertKey m ∈ A <-> alertKey m ∈ A') -> fires th data A m = fires th data A' m.
Proof.
  intros H. unfold fires. destruct (blockOf th data m); [|done].
  f_equal. apply bool_decide_ext. by rewrite H.
Qed.

Lemma eventsOf_key th data A A' m :
  (alertKey m ∈ A <-> alertKey m ∈ A') ->
  eventsOf th data A m = eventsOf th data A' m.
Proof.
  intros H. unfold eventsOf. by rewrite (fires_key _ _ _ _ _ H).
Qed.

Lemma activeAfter_key th data A A' m :
  (alertKey m ∈ A <-> alertKey m ∈ A') ->
  activeAfter th data A m = activeAfter th data A' m.
Proof.
  intros H. unfold activeAfter. rewrite (fires_key _ _ _ _ _ H).
  by rewrite (bool_decide_ext _ _ H).
Qed.

Lemma bind_ext_elem {A B} (f g : A -> list B) (l : list A) :
  (forall x, x ∈ l -> f x = g x) -> l ≫= f = l ≫= g.
Proof.
  induction l as [|x l IH]; intros H; csimpl; [done|].
  rewrite (H x), IH; [done| |]; intros; try apply H; set_solver.
Qed.

(** A run over pairwise distinct metrics: every metric is judged against
    the initial active set, and the toasts come in the order of the run. *)
Lemma stepMetrics_spec th data (ms : list Metric) :
  NoDup ms -> forall w,
  let w' := foldl (fun w m => stepMetric th data m w) w ms in
  Fx.shown w' = Fx.shown w ++ (ms ≫= eventsOf th data (Fx.alerts w)) /\
  (forall m, m ∈ ms ->
     (alertKey m ∈ Fx.alerts w' <-> activeAfter th data (Fx.alerts w) m = true)) /\
  (forall k, (forall m, m ∈ ms -> alertKey m ≠ k) ->
     (k ∈ Fx.alerts w' <-> k ∈ Fx.alerts w)).
Proof.
  induction 1 as [|m ms Hm Hnd IH]; intros w; cbn zeta.
  { cbn [foldl]. split_and!; [by rewrite app_nil_r | set_solver | done]. }
  cbn [foldl]. destruct (IH (stepMetric th data m w)) as (Hs & Hin & Hout).
  assert (Hsame : forall m', m' ∈ ms ->
            (alertKey m' ∈ Fx.alerts (stepMetric th data m w)
             <-> alertKey m' ∈ Fx.alerts w)).
  { intros m' Hm'. rewrite stepMetric_alerts. case_decide as Hk; [|done].
    apply (inj alertKey) in Hk. by subst. }
  split_and!.
  - rewrite Hs, stepMetric_shown, <- app_assoc. do 2 f_equal. csimpl. f_equal.
    apply bind_ext_elem. intros m' Hm'. by apply eventsOf_key, Hsame.
  - intros m' [->|Hm']%elem_of_cons.
    + rewrite Hout, stepMetric_alerts; [by rewrite decide_True|].
      intros m' Hm' Hk. apply (inj alertKey) in Hk. by subst.
    + rewrite (Hin _ Hm'). by rewrite (activeAfter_key _ _ _ _ _ (Hsame _ Hm')).
  - intros k Hk. rewrite Hout; [|intros m' Hm'; apply Hk; by right].
    rewrite stepMetric_alerts, decide_False; [done|].
    intros ->. by apply (Hk m); [left|].
Qed.

(** ** [checkThresholds] is the run over the tracked metrics *)

Lemma forEach_steps th data w (gs pre : list GpuWithMetrics) :
  gpus data = pre ++ gs ->
  Fx.exec (Fx.forEach_from (length pre) gs (checkGpu th)) w =
  foldl (fun w m => stepMetric th data m w) w
        (seq (length pre) (length gs) ≫= perDevice).
Proof.
  revert pre w. induction gs as [|g gs IH]; intros pre w Hd; [done|].
  cbn [Fx.forEach_from length seq]. rewrite bind_cons, foldl_app.
  rewrite exec_seq.
  assert (Hg : gpus data !! length pre = Some g)
    by (rewrite Hd; apply list_lookup_middle; done).
  replace (S (length pre)) with (length (pre ++ [g]))
    by (rewrite length_app; simpl; lia).
  rewrite <- IH by (by rewrite <- app_assoc).
  f_equal. unfold checkGpu. rewrite !exec_seq.
  cbn [perDevice foldl]. unfold stepMetric. cbn [blockOf]. rewrite Hg.
  reflexivity.
Qed.

Lemma checkThresholds_steps th data w :
  Fx.exec (checkThresholds th data) w =
  foldl (fun w m => stepMetric th data m w) w (tracked data).
Proof.
  unfold checkThresholds, tracked. rewrite !exec_seq, foldl_app.
  unfold Fx.forEach. by rewrite (forEach_steps th data _ (gpus data) []).
Qed.

Lemma elem_of_tracked data m :
  m ∈ tracked data <->
  m = Cpu \/ m = Memory \/ m = Swap \/
  exists i, i < length (gpus data) /\ (m = GpuUtil i \/ m = GpuMem i \/ m = Temp i).
Proof.
  unfold tracked. rewrite elem_of_app, list_elem_of_bind, !elem_of_cons, elem_of_nil.
  split.
  - intros [H|(i & Hm & Hi)]; [naive_solver|].
    apply elem_of_seq in Hi. unfold perDevice in Hm.
    rewrite !elem_of_cons, elem_of_nil in Hm. right; right; right.
    exists i. split; [lia | naive_solver].
  - intros [H|[H|[H|(i & Hi & Hm)]]]; [naive_solver..|].
    right. exists i. split; [|apply elem_of_seq; lia].
    unfold perDevice. rewrite !elem_of_cons. naive_solver.
Qed.

Lemma NoDup_tracked data : NoDup (tracked data).
Proof.
  unfold tracked. apply NoDup_app. split_and!.
  - repeat (apply NoDup_cons; split; [set_solver|]). apply NoDup_nil_2.
  - intros m Hm (i & Hi & _)%list_elem_of_bind.
    unfold perDevice in Hi. set_solver.
  - apply NoDup_bind; [| |apply NoDup_seq].
    + intros i j m _ _ Hi Hj. unfold perDevice in *. set_solver.
    + intros i _. unfold perDevice.
      repeat (apply NoDup_cons; split; [set_solver|]). apply NoDup_nil_2.
Qed.

(** The evaluator, characterised: for every snapshot, thresholds and active
    set, the toasts of one evaluation are those of the tracked metrics in
    order, each judged against the active set the evaluation started with. *)
Lemma checkThresholds_spec th data w :
  let w' := Fx.exec (checkThresholds th data) w in
  Fx.shown w' = Fx.shown w ++ (tracked data ≫= eventsOf th data (Fx.alerts w)) /\
  (forall m, m ∈ tracked data ->
     (alertKey m ∈ Fx.alerts w' <-> activeAfter th data (Fx.alerts w) m = true)) /\
  (forall k, (forall m, m ∈ tracked data -> alertKey m ≠ k) ->
     (k ∈ Fx.alerts w' <-> k ∈ Fx.alerts w)).
Proof.
  cbn zeta. rewrite checkThresholds_steps.
  apply stepMetrics_spec, NoDup_tracked.
Qed.

(** ** Blocks in terms of readings and thresholds *)

Lemma blockOf_tracked th data m :
  m ∈ tracked data ->
  exists b, blockOf th data m = Some b /\
    type (b_toast b) = severity m /\
    (forall v, reading data m = Some v ->
       (isTemperature m = true -> Js.truthy (Some v) = true) ->
       b_fire b = (v >=? limit th m)%float /\
       b_clear b = Js.lt v (limit th m * 0.9)%float) /\
    (isTemperature m = true -> Js.truthy (reading data m) = false ->
       b_fire b = false /\ b_clear b = true).
Proof.
  intros [->|[->|[->|(i & Hi & Hm)]]]%elem_of_tracked.
  1-3: eexists; split; [reflexivity|]; split; [reflexivity|];
       split; [by intros v [= <-] _ | by intros [=]].
  apply lookup_lt_is_Some_2 in Hi as [g Hg].
  destruct Hm as [->|[->| ->]]; cbn [blockOf reading limit isTemperature];
    rewrite Hg; cbn [fmap option_fmap option_map mbind option_bind];
    eexists; (split; [reflexivity|]); (split; [reflexivity|]).
  1-2: split; [by intros v [= <-] _ | by intros [=]].
  unfold compose. cbn [tempBlock b_fire b_clear]. split.
  - intros v -> Hv. specialize (Hv eq_refl). by rewrite Hv.
  - intros _ ->. done.
Qed.

(* ====================================================================== *)
(** ** C1: the hysteresis rule, metric by metric *)
(* ====================================================================== *)

(** C1, as the code has it.  One evaluation of a snapshot shows the toasts
    of the tracked metrics in order, at most one per metric, and only on a
    transition of the metric's key into the active set.  Every tracked
    metric with a current value follows the hysteresis rule (one toast and
    the key added when [v >= t] and the key is not active; the key removed
    silently when [v < t * 0.9] and the key is active; nothing otherwise),
    with severity [warning], and [error] for temperatures -- for a
    temperature, provided the reading is truthy (present, not zero, not
    NaN).  A temperature whose reading is null, zero or NaN shows no toast
    and its key is not active afterwards. *)
Theorem hysteresis_rule_per_metric th data w m :
  m ∈ tracked data ->
  let A := Fx.alerts w in
  let w' := Fx.exec (checkThresholds th data) w in
  Fx.shown w' = Fx.shown w ++ (tracked data ≫= eventsOf th data A) /\
  (length (eventsOf th data A m) <= 1 /\
   (eventsOf th data A m ≠ [] -> (alertKey m ∉ A) /\ alertKey m ∈ Fx.alerts w')) /\
  (forall v, reading data m = Some v ->
     (isTemperature m = true -> Js.truthy (Some v) = true) ->
     HysteresisRule th data w m v) /\
  (isTemperature m = true -> Js.truthy (reading data m) = false ->
     (alertKey m ∉ Fx.alerts w') /\ eventsOf th data A m = []).
Proof.
  intros Hm A w'.
  destruct (checkThresholds_spec th data w) as (Hs & Hin & _).
  specialize (Hin m Hm). fold w' in Hs, Hin. fold A in Hs, Hin.
  destruct (blockOf_tracked th data m Hm) as (b & Hb & Hty & Hval & Hnone).
  unfold HysteresisRule. fold A w'.
  unfold activeAfter in Hin. unfold eventsOf. unfold fires in *.
  rewrite Hb in *.
  split; [exact Hs|]. split; [|split].
  - destruct (b_fire b && _) eqn:Hf; cbn [length]; split; try lia; try done.
    intros _. apply andb_true_iff in Hf as [_ Hk%bool_decide_eq_true].
    split; [done | by apply Hin].
  - intros v Hv Ht. destruct (Hval v Hv Ht) as [Hfire Hclear].
    rewrite Hfire, Hclear in *. clear Hval Hnone Hfire Hclear.
    split; [|split].
    + intros [Hge Hk]. rewrite Hge, bool_decide_eq_true_2 in * by done.
      cbn [andb] in *. split; [by apply Hin | eauto].
    + intros [Hlt Hk].
      rewrite (bool_decide_eq_false_2 (alertKey m ∉ A)), andb_false_r in *
        by (intros Hn; by apply Hn).
      rewrite Hlt in Hin. split; [|done]. intros Hk'%Hin. done.
    + intros Hn1 Hn2.
      destruct ((v >=? limit th m)%float && bool_decide (alertKey m ∉ A)) eqn:Hf.
      { apply andb_true_iff in Hf as [? ?%bool_decide_eq_true]. by destruct Hn1. }
      split; [|done].
      destruct (Js.lt v (limit th m * 0.9)%float) eqn:Hlt.
      * rewrite Hin. split; [done|]. intros Hk. by destruct Hn2.
      * by rewrite Hin, bool_decide_eq_true.
  - intros Ht Hr. destruct (Hnone Ht Hr) as [Hfire Hclear].
    rewrite Hfire, Hclear in *. cbn [andb] in *. split; [|done].
    intros Hk%Hin. done.
Qed.

Lemma hysteresis_rule_per_metric_witness :
  Cpu ∈ tracked busyCpu /\
  HysteresisRule DEFAULT_THRESHOLDS busyCpu idle Cpu 95.
Proof.
  assert (Hm : Cpu ∈ tracked busyCpu) by (apply elem_of_tracked; by left).
  split; [exact Hm|].
  destruct (hysteresis_rule_per_metric DEFAULT_THRESHOLDS busyCpu idle Cpu Hm)
    as (_ & _ & Hrule & _).
  apply Hrule; [reflexivity | discriminate].
Defined.

(** C1 as stated fails for a temperature of exactly zero: with the
    temperature threshold at 0 and a device reading 0 °C, [v >= t] holds and
    the key is not active, yet the evaluation shows no toast and adds no
    key, because the code tests the reading for truthiness first. *)
Lemma zero_temperature_never_alerts :
  Temp 0 ∈ tracked freezing /\
  reading freezing (Temp 0) = Some 0%float /\
  (0 >=? limit zeroTemperatureLimit (Temp 0))%float = true /\
  (alertKey (Temp 0) ∉ Fx.alerts idle) /\
  Fx.exec (checkThresholds zeroTemperatureLimit freezing) idle = idle /\
  ~ HysteresisRule zeroTemperatureLimit freezing idle (Temp 0) 0.
Proof.
  assert (Hrun : Fx.exec (checkThresholds zeroTemperatureLimit freezing) idle = idle)
    by (vm_compute; reflexivity).
  split_and!; [apply elem_of_tracked; right; right; right; exists 0; simpl; split; [lia|tauto]
              | reflexivity | reflexivity | set_solver | exact Hrun |].
  intros (Henter & _). unfold HysteresisRule in Henter. rewrite Hrun in Henter.
  destruct Henter as [Hin _]; [split; [reflexivity | set_solver]|].
  cbn [idle Fx.alerts] in Hin. set_solver.
Qed.

(* ====================================================================== *)
(** ** C3: the hysteresis fixtures *)
(* ====================================================================== *)

(** C3 as stated fails on its first fixture: with threshold 90, the CPU
    values 95, 95, 85, 95 raise one alert, not two.  The alert raised at
    the first 95 is still active at the last one, because 85 is not below
    90 * 0.9 = 81. *)
Lemma fixture_95_95_85_95_raises_one_alert :
  length <$> (feed DEFAULT_THRESHOLDS (cpuStream [95; 95; 85; 95]%float) ∅).1
    = [1; 0; 0; 0] /\
  length (concat (feed DEFAULT_THRESHOLDS (cpuStream [95; 95; 85; 95]%float) ∅).1)
    ≠ 2.
Proof. split; [vm_compute; reflexivity | vm_compute; discriminate]. Qed.

(** C3, as the code has it.  With the CPU threshold at 90 and no active
    alert, the values 95, 95, 85, 95 raise exactly one alert, at the first
    95, and leave the key active throughout; the values 95, 80, 95 raise
    exactly two alerts, at the first and at the last value, and the key is
    cleared without a toast at 80. *)
Theorem hysteresis_fixtures :
  th_cpu DEFAULT_THRESHOLDS = 90%float /\
  (90 * 0.9)%float = 81%float /\
  (let run := feed DEFAULT_THRESHOLDS (cpuStream [95; 95; 85; 95]%float) ∅ in
   length <$> run.1 = [1; 0; 0; 0] /\ run.2 = {["cpu"]}) /\
  (feed DEFAULT_THRESHOLDS (cpuStream [95; 95; 85]%float) ∅).2 = {["cpu"]} /\
  (let run := feed DEFAULT_THRESHOLDS (cpuStream [95; 80; 95]%float) ∅ in
   length <$> run.1 = [1; 0; 1] /\ run.2 = {["cpu"]}) /\
  (feed DEFAULT_THRESHOLDS (cpuStream [95; 80]%float) ∅).2 = ∅.
Proof. cbn zeta. split_and!; vm_compute; reflexivity. Qed.

(* ====================================================================== *)
(** ** C2: the rolling history buffers *)
(* ====================================================================== *)

Lemma slice_last_length {A} (n : nat) (l : list A) :
  length (Js.slice_last n l) = length l `min` n.
Proof. unfold Js.slice_last. rewrite length_drop. lia. Qed.

Lemma slice_last_suffix {A} (n : nat) (l : list A) :
  take (length l - n) l ++ Js.slice_last n l = l.
Proof. apply take_drop. Qed.

(** Appending to the last [c] of the last [S c] values keeps the last
    [S c] values of the extended sequence. *)
Lemma slice_last_push {A} (c : nat) (l : list A) (v : A) :
  Js.slice_last c (Js.slice_last (S c) l) ++ [v] = Js.slice_last (S c) (l ++ [v]).
Proof.
  unfold Js.slice_last. rewrite length_drop, drop_drop, length_app. simpl.
  destruct (decide (length l <= c)) as [Hle|Hgt].
  - replace (length l - S c + (length l - (length l - S c) - c)) with 0 by lia.
    replace (length l + 1 - S c) with 0 by lia. done.
  - rewrite drop_app_le by lia. do 2 f_equal. lia.
Qed.

Lemma pushSample_run (vs : list Js.number) :
  foldl pushSample [] vs = Js.slice_last 60 vs.
Proof.
  induction vs as [|v vs IH] using rev_ind; [done|].
  rewrite foldl_app. cbn [foldl]. rewrite IH. unfold pushSample.
  apply slice_last_push.
Qed.

Lemma buffer_run (buf : HistoricalData -> list Js.number)
    (sample : AllMetrics -> Js.number) :
  (forall data h, buf (updateHistoricalData data h) = pushSample (buf h) (sample data)) ->
  forall stream h,
    buf (foldl (fun h data => updateHistoricalData data h) h stream)
    = foldl pushSample (buf h) (sample <$> stream).
Proof.
  intros Hstep stream. induction stream as [|data stream IH]; intros h; [done|].
  cbn [foldl fmap list_fmap]. by rewrite IH, Hstep.
Qed.

(** C2.  After any [k] successful fetches from the empty history, each of
    the ten buffers has length [min k 60], hence at most 60, and is the
    sequence of the last [min k 60] values appended to it, in the order
    they were appended: the values before them were dropped, oldest
    first. *)
Theorem rolling_history_bounded (stream : list AllMetrics) :
  Forall (fun '(buf, sample) =>
            let appended := sample <$> stream in
            let held := buf (historyAfter stream) in
            length held = length stream `min` 60 /\
            length held <= 60 /\
            held = drop (length stream - 60) appended /\
            exists evicted, appended = evicted ++ held)
         buffers.
Proof.
  assert (Hgen : forall buf sample,
    buf emptyHistory = [] ->
    (forall data h, buf (updateHistoricalData data h)
                    = pushSample (buf h) (sample data)) ->
    let appended := sample <$> stream in
    let held := buf (historyAfter stream) in
    length held = length stream `min` 60 /\ length held <= 60 /\
    held = drop (length stream - 60) appended /\
    exists evicted, appended = evicted ++ held).
  { intros buf sample Hempty Hstep appended held.
    assert (Hheld : held = Js.slice_last 60 appended).
    { unfold held, historyAfter. rewrite (buffer_run buf sample Hstep), Hempty.
      apply pushSample_run. }
    rewrite Hheld. rewrite slice_last_length. unfold appended at 1 2.
    rewrite length_fmap. split_and!; [done | lia | |].
    - unfold Js.slice_last, appended. by rewrite length_fmap.
    - eexists. symmetry. apply slice_last_suffix. }
  unfold buffers. repeat (apply Forall_cons; split; [by apply Hgen|]).
  apply Forall_nil_2.
Qed.

(* ====================================================================== *)
(** ** C4: a failed fetch *)
(* ====================================================================== *)

(** C4.  When a waiting fetch fails, the page publishes the error message
    and nothing else: the rolling history, the active alert set, the
    toasts, the last metrics, the thresholds and the uptime counter are as
    they were, the timer stays registered, and the next tick of a
    registered timer issues a new fetch. *)
Theorem failed_fetch_only_sets_error p i closedOver err :
  pending p !! i = Some closedOver ->
  let p' := settle i (Rejected err) p in
  error p' = Some match err with
                  | ErrorObject msg => msg
                  | OtherValue => "Failed to load metrics"
                  end /\
  historicalData p' = historicalData p /\
  alertedRef p' = alertedRef p /\
  toasts p' = toasts p /\
  metrics p' = metrics p /\
  thresholds p' = thresholds p /\
  sessionUptime p' = sessionUptime p /\
  interval p' = interval p /\
  (interval p = true -> pending (tick p') = pending p' ++ [thresholds p']).
Proof.
  intros Hp p'. unfold p', settle. rewrite Hp.
  cbn [fetchMetrics_catch setError withPending error historicalData alertedRef
       toasts metrics thresholds sessionUptime interval pending].
  split_and!; try reflexivity.
  intros Hi. unfold tick, fetchMetrics_catch, setError, withPending.
  cbn [interval]. rewrite Hi. reflexivity.
Qed.

Lemma failed_fetch_only_sets_error_witness :
  let p' := settle 0 (Rejected (ErrorObject "get_all_metrics failed")) mounted in
  error p' = Some "get_all_metrics failed" /\
  historicalData p' = historicalData mounted /\
  alertedRef p' = alertedRef mounted /\
  interval p' = true /\
  pending (tick p') = [DEFAULT_THRESHOLDS].
Proof.
  cbn zeta.
  destruct (failed_fetch_only_sets_error mounted 0 DEFAULT_THRESHOLDS
              (ErrorObject "get_all_metrics failed") eq_refl)
    as (He & Hh & Ha & _ & _ & _ & _ & Hi & Ht).
  split_and!; [exact He | exact Hh | exact Ha | exact Hi |].
  rewrite Ht by reflexivity. reflexivity.
Defined.

(* ====================================================================== *)
(** ** C5: a fetch that settles after the cleanup *)
(* ====================================================================== *)

(** C5 as stated fails.  The cleanup clears the timer and nothing else,
    and nothing in the page discards the result of a fetch that was
    waiting.  When the page unmounts while its first fetch is waiting and
    the fetch then resolves with the CPU at 95, the snapshot is still
    evaluated: the CPU alert becomes active and its toast is shown (React
    drops the updates of the metrics and of the history).  When the
    cleanup runs because the effect is about to run again, the page is
    still mounted and the late result is processed in full: the history
    gains the sample, the alert is evaluated and shown, and the metrics
    are published; and when the fetch fails, the error is published. *)
Lemma late_fetch_is_not_discarded :
  (let gone := advance noText Unmounts (mount mounted) in
   let late := page (advance noText
                       (Happens (FetchSettles 0 (Resolved (snapshot 95 []))))
                       gone) in
   unmounted gone = true /\
   interval (page gone) = false /\
   pending (page gone) = [DEFAULT_THRESHOLDS] /\
   alertedRef (page gone) = ∅ /\
   toasts (page gone) = [] /\
   alertedRef late = {["cpu"]} /\
   length (toasts late) = 1 /\
   metrics late = None /\
   h_cpu (historicalData late) = []) /\
  (let stopped := cleanup mounted in
   pending stopped = [DEFAULT_THRESHOLDS] /\
   interval stopped = false /\
   (let p' := settle 0 (Resolved (snapshot 95 [])) stopped in
    h_cpu (historicalData p') = [95%float] /\
    h_cpu (historicalData stopped) = [] /\
    alertedRef p' = {["cpu"]} /\
    alertedRef stopped = ∅ /\
    length (toasts p') = 1 /\
    toasts stopped = [] /\
    metrics p' = Some (snapshot 95 []) /\
    metrics stopped = None) /\
   (let p' := settle 0 (Rejected (ErrorObject "late")) stopped in
    error p' = Some "late" /\ error stopped = None)).
Proof. cbn zeta. split_and!; vm_compute; reflexivity. Qed.

(** C5, as the code has it.  The cleanup clears the timer, so no tick
    issues a fetch afterwards, and running it twice is running it once.
    It does not touch the waiting fetches.  On a page that stays mounted
    (the cleanup that precedes a new run of the effect), a fetch that
    settles after the cleanup is processed exactly as it would have been
    without it: on success the metrics are published, the history is
    extended and the alerts are evaluated with the thresholds the fetch
    closed over; on failure the error message is published.  On a page
    that has unmounted, no callback of the timer issues a fetch, and a
    fetch that settles late changes neither the metrics, the error, the
    uptime, the history nor the thresholds; when it resolves, its
    snapshot is nevertheless evaluated with the thresholds it closed
    over, which updates the active alert set and shows the toasts; when
    it fails, the alert set and the toasts are as they were. *)
Theorem cleanup_keeps_pending_fetches JSON_stringify p i closedOver r :
  pending p !! i = Some closedOver ->
  let stopped := cleanup p in
  interval stopped = false /\
  tick stopped = stopped /\
  cleanup stopped = stopped /\
  pending stopped = pending p /\
  settle i r stopped = cleanup (settle i r p) /\
  match r with
  | Resolved data =>
      let p' := settle i r stopped in
      let w := Fx.exec (checkThresholds closedOver data)
                 {| Fx.alerts := alertedRef p; Fx.shown := toasts p |} in
      metrics p' = Some data /\
      error p' = None /\
      historicalData p' = updateHistoricalData data (historicalData p) /\
      alertedRef p' = Fx.alerts w /\
      toasts p' = Fx.shown w
  | Rejected err =>
      settle i r stopped = fetchMetrics_catch err (withPending (delete i) stopped)
  end /\
  let gone := advance JSON_stringify Unmounts (mount p) in
  let late := page (advance JSON_stringify (Happens (FetchSettles i r)) gone) in
  page gone = stopped /\
  unmounted gone = true /\
  interval (page (advance JSON_stringify (Happens TimerFires) gone)) = false /\
  pending (page (advance JSON_stringify (Happens TimerFires) gone)) = pending p /\
  metrics late = metrics p /\
  error late = error p /\
  sessionUptime late = sessionUptime p /\
  historicalData late = historicalData p /\
  thresholds late = thresholds p /\
  interval late = false /\
  pending late = delete i (pending p) /\
  match r with
  | Resolved data =>
      let w := Fx.exec (checkThresholds closedOver data)
                 {| Fx.alerts := alertedRef p; Fx.shown := toasts p |} in
      alertedRef late = Fx.alerts w /\ toasts late = Fx.shown w
  | Rejected err => alertedRef late = alertedRef p /\ toasts late = toasts p
  end.
Proof.
  intros Hp stopped. unfold stopped, advance, mount.
  cbn [page unmounted reachesUnmounted step].
  unfold settle, tick, cleanup. cbn [withInterval interval pending]. rewrite Hp.
  split_and!; try reflexivity; destruct r; cbn zeta; try split_and!; reflexivity.
Qed.

Lemma cleanup_keeps_pending_fetches_witness :
  pending mounted !! 0 = Some DEFAULT_THRESHOLDS /\
  settle 0 (Resolved (snapshot 95 [])) (cleanup mounted)
  = cleanup (settle 0 (Resolved (snapshot 95 [])) mounted) /\
  historicalData
    (page (advance noText (Happens (FetchSettles 0 (Resolved (snapshot 95 []))))
             (advance noText Unmounts (mount mounted))))
  = historicalData mounted.
Proof.
  split; [reflexivity|].
  destruct (cleanup_keeps_pending_fetches noText mounted 0 DEFAULT_THRESHOLDS
              (Resolved (snapshot 95 [])) eq_refl)
    as (_ & _ & _ & _ & Hsame & _ & _ & _ & _ & _ & _ & _ & _ & Hh & _).
  split; [exact Hsame | exact Hh].
Defined.

(* ====================================================================== *)
(** ** C6: no swap configured *)
(* ====================================================================== *)

(** C6 as stated fails for a swap threshold of 0: without swap the swap
    percentage is 0, and [0 >= 0] raises the alert. *)
Lemma zero_swap_limit_alerts_without_swap :
  swap_total_mb (system noSwap) = 0%float /\
  swapPercent noSwap = 0%float /\
  th_swap zeroSwapLimit = 0%float /\
  ("swap" ∉ Fx.alerts idle) /\
  Fx.alerts (Fx.exec (checkThresholds zeroSwapLimit noSwap) idle) = {["swap"]} /\
  Fx.shown (Fx.exec (checkThresholds zeroSwapLimit noSwap) idle)
  = [ {| type := Toast.warning;
         message := {| msg_prefix := "Swap critical: "; msg_value := 0;
                       msg_suffix := "%" |};
         duration := 5000 |} ].
Proof.
  split_and!; [reflexivity | reflexivity | reflexivity | set_solver
              | vm_compute; reflexivity | vm_compute; reflexivity].
Qed.

(** C6, as the code has it.  For every snapshot whose total swap is zero
    the swap percentage is zero, and for every positive swap threshold the
    evaluation shows no swap toast and never adds the key "swap": it is
    active afterwards only if it was active before. *)
Theorem no_swap_never_alerts th data w :
  PrimFloat.eqb (swap_total_mb (system data)) 0 = true ->
  (th_swap th >? 0)%float = true ->
  let w' := Fx.exec (checkThresholds th data) w in
  swapPercent data = 0%float /\
  ("swap" ∈ Fx.alerts w' -> "swap" ∈ Fx.alerts w) /\
  eventsOf th data (Fx.alerts w) Swap = [] /\
  forall w0, Fx.shown (Fx.exec (checkSwap th data) w0) = Fx.shown w0 /\
             Fx.alerts (Fx.exec (checkSwap th data) w0) ⊆ Fx.alerts w0.
Proof.
  intros Htotal Hth w'.
  assert (Hpct : swapPercent data = 0%float).
  { unfold swapPercent. by rewrite (zero_not_gt_zero _ Htotal). }
  assert (Hfire : b_fire (swapBlock th data) = false).
  { cbn [swapBlock b_fire]. rewrite Hpct. by apply zero_not_ge_positive. }
  destruct (checkThresholds_spec th data w) as (_ & Hin & _).
  specialize (Hin Swap). fold w' in Hin.
  unfold activeAfter, fires in Hin. cbn [blockOf alertKey] in Hin.
  rewrite Hfire in Hin. cbn [andb] in Hin.
  split_and!; [exact Hpct | | |].
  - intros Hk. apply Hin in Hk; [|apply elem_of_tracked; tauto].
    destruct (b_clear (swapBlock th data)); [done|].
    by apply bool_decide_eq_true in Hk.
  - unfold eventsOf, fires. cbn [blockOf]. by rewrite Hfire.
  - intros w0. rewrite checkSwap_block, runBlock_exec, Hfire. cbn [andb].
    destruct (b_clear (swapBlock th data)); cbn [Fx.shown Fx.alerts];
      split; set_solver.
Qed.

Lemma no_swap_never_alerts_witness :
  swapPercent noSwap = 0%float /\
  ("swap" ∈ Fx.alerts (Fx.exec (checkThresholds DEFAULT_THRESHOLDS noSwap) idle) ->
   "swap" ∈ Fx.alerts idle).
Proof.
  destruct (no_swap_never_alerts DEFAULT_THRESHOLDS noSwap idle eq_refl eq_refl)
    as (Hpct & Hkeep & _).
  split; [exact Hpct | exact Hkeep].
Defined.

(* ====================================================================== *)
(** ** C7: a device without a temperature reading *)
(* ====================================================================== *)

(** C7 as stated fails: a missing temperature does change the key's
    membership.  The second condition of the temperature block starts with
    [!gpu.current.temperature_celsius], so an active key is deleted. *)
Lemma missing_temperature_clears_active_alert :
  reading sensorless (Temp 0) = None /\
  tempKey 0 ∈ Fx.alerts overheated /\
  tempKey 0 ∉ Fx.alerts (Fx.exec (checkThresholds DEFAULT_THRESHOLDS sensorless)
                                 overheated).
Proof.
  split_and!; [reflexivity | set_solver |].
  assert (Fx.alerts (Fx.exec (checkThresholds DEFAULT_THRESHOLDS sensorless)
                             overheated) = ∅) as -> by (vm_compute; reflexivity).
  set_solver.
Qed.

(** C7, as the code has it.  For every snapshot in which a device has no
    temperature reading, the evaluation shows no toast for that device's
    temperature key and never adds the key; it deletes the key, so an
    active temperature alert of that device is cleared silently. *)
Theorem missing_temperature_clears th data w i gpu :
  gpus data !! i = Some gpu ->
  temperature_celsius (current gpu) = None ->
  let w' := Fx.exec (checkThresholds th data) w in
  (tempKey i ∉ Fx.alerts w') /\
  eventsOf th data (Fx.alerts w) (Temp i) = [] /\
  forall w0, Fx.exec (checkTemp th gpu i) w0
             = {| Fx.alerts := Fx.alerts w0 ∖ {[tempKey i]};
                  Fx.shown := Fx.shown w0 |}.
Proof.
  intros Hg Hnone w'.
  assert (Hm : Temp i ∈ tracked data).
  { apply elem_of_tracked. right; right; right. exists i.
    split; [by eapply lookup_lt_Some | tauto]. }
  destruct (checkThresholds_spec th data w) as (_ & Hin & _).
  specialize (Hin _ Hm). fold w' in Hin.
  unfold activeAfter, eventsOf, fires in *. cbn [blockOf alertKey] in *.
  rewrite Hg in *. cbn [fmap option_fmap option_map] in *.
  unfold tempBlock in *. rewrite Hnone in *. cbn in Hin.
  split_and!.
  - intros Hk%Hin. done.
  - reflexivity.
  - intros w0. rewrite checkTemp_block, runBlock_exec.
    unfold tempBlock. rewrite Hnone. reflexivity.
Qed.

Lemma missing_temperature_clears_witness :
  tempKey 0 ∉ Fx.alerts (Fx.exec (checkThresholds DEFAULT_THRESHOLDS sensorless)
                                 overheated).
Proof.
  apply (missing_temperature_clears DEFAULT_THRESHOLDS sensorless overheated 0
           (device 0 0 0 None) eq_refl eq_refl).
Defined.

(* ====================================================================== *)
(** ** C9: per-device keys *)
(* ====================================================================== *)

(** The evaluation reads nothing of a device but its [current] metrics. *)
Lemma forEach_current th (gs gs' : list GpuWithMetrics) :
  current <$> gs' = current <$> gs ->
  forall i, Fx.forEach_from i gs' (checkGpu th) = Fx.forEach_from i gs (checkGpu th).
Proof.
  revert gs'. induction gs as [|g gs IH]; intros [|g' gs'] [=] i; [done|].
  cbn [Fx.forEach_from]. rewrite (IH gs') by done.
  unfold checkGpu, checkGpuUtil, checkGpuMem, checkTemp. by rewrite H0.
Qed.

Lemma checkThresholds_current th data data' :
  system data' = system data ->
  current <$> gpus data' = current <$> gpus data ->
  checkThresholds th data' = checkThresholds th data.
Proof.
  intros Hs Hg. unfold checkThresholds, checkCpu, checkMemory, checkSwap,
    swapPercent, Fx.forEach.
  by rewrite Hs, (forEach_current th _ _ Hg).
Qed.

(** C9 as stated fails: the keys are built from the position of the device
    in [data.gpus], not from its identifier.  A single device with
    identifier 7 alerts under the key "gpu-0", and when two devices change
    places between two snapshots, the device that stayed at 95 % alerts a
    second time, under the key "gpu-1". *)
Lemma keys_follow_position_not_identifier :
  info_id (info deviceA) = 7%float /\
  gpus onlyDeviceA = [deviceA] /\
  Fx.alerts (Fx.exec (checkThresholds DEFAULT_THRESHOLDS onlyDeviceA) idle)
  = {["gpu-0"]} /\
  ("gpu-7" ∉ Fx.alerts (Fx.exec (checkThresholds DEFAULT_THRESHOLDS onlyDeviceA) idle)) /\
  (let run := feed DEFAULT_THRESHOLDS [twoDevices; twoDevicesSwapped] ∅ in
   length <$> run.1 = [1; 1] /\ run.2 = {["gpu-1"]}).
Proof.
  assert (Fx.alerts (Fx.exec (checkThresholds DEFAULT_THRESHOLDS onlyDeviceA) idle)
          = {["gpu-0"]}) as -> by (vm_compute; reflexivity).
  cbn zeta. split_and!; [reflexivity | reflexivity | reflexivity | set_solver
                        | vm_compute; reflexivity | vm_compute; reflexivity].
Qed.

(** C9, as the code has it.  The per-device metrics are evaluated under
    the keys "gpu-i", "gpuMem-i" and "temp-i", where [i] is the position of
    the device in [data.gpus]; the evaluation does not read the device's
    identifier.  After an evaluation each of the three keys of the device
    at position [i] is active according to that device's own reading and
    that key's own previous state, whatever the other devices read.  For
    two devices, the first at 95 % and the second at 50 % utilization
    against the threshold 90, exactly one toast is shown, for the first
    device's utilization, and "gpu-0" is the only active key. *)
Theorem per_device_keys_by_position th data w i gpu :
  gpus data !! i = Some gpu ->
  let A := Fx.alerts w in
  let A' := Fx.alerts (Fx.exec (checkThresholds th data) w) in
  (alertKey (GpuUtil i) = "gpu-" +:+ pretty i /\
   alertKey (GpuMem i) = "gpuMem-" +:+ pretty i /\
   alertKey (Temp i) = "temp-" +:+ pretty i) /\
  (forall data', system data' = system data ->
     current <$> gpus data' = current <$> gpus data ->
     checkThresholds th data' = checkThresholds th data) /\
  (gpuKey i ∈ A' <->
   hysteresis (gpu_utilization (current gpu) >=? th_gpu th)%float
              (Js.lt (gpu_utilization (current gpu)) (th_gpu th * 0.9)%float)
              (bool_decide (gpuKey i ∈ A)) = true) /\
  (gpuMemKey i ∈ A' <->
   hysteresis (memory_utilization (current gpu) >=? th_gpuMemory th)%float
              (Js.lt (memory_utilization (current gpu)) (th_gpuMemory th * 0.9)%float)
              (bool_decide (gpuMemKey i ∈ A)) = true) /\
  (tempKey i ∈ A' <->
   hysteresis (b_fire (tempBlock th gpu i)) (b_clear (tempBlock th gpu i))
              (bool_decide (tempKey i ∈ A)) = true) /\
  Fx.exec (checkThresholds DEFAULT_THRESHOLDS twoDevices) idle
  = {| Fx.alerts := {["gpu-0"]};
       Fx.shown := [ {| type := Toast.warning;
                        message := {| msg_prefix := "GPU at "; msg_value := 95;
                                      msg_suffix := "%" |};
                        duration := 5000 |} ] |}.
Proof.
  intros Hg A A'.
  assert (Hi : i < length (gpus data)) by (by eapply lookup_lt_Some).
  destruct (checkThresholds_spec th data w) as (_ & Hin & _). fold A A' in Hin.
  assert (Hact : forall m b, m ∈ tracked data -> blockOf th data m = Some b ->
            (alertKey m ∈ A' <->
             hysteresis (b_fire b) (b_clear b) (bool_decide (alertKey m ∈ A)) = true)).
  { intros m b Hm Hb. rewrite (Hin m Hm). unfold activeAfter, fires, hysteresis.
    rewrite Hb, <- bool_decide_not. reflexivity. }
  split_and!; try reflexivity.
  - intros data'. apply checkThresholds_current.
  - apply (Hact (GpuUtil i) (gpuUtilBlock th gpu i)); [apply elem_of_tracked; naive_solver|].
    cbn [blockOf]. by rewrite Hg.
  - apply (Hact (GpuMem i) (gpuMemBlock th gpu i)); [apply elem_of_tracked; naive_solver|].
    cbn [blockOf]. by rewrite Hg.
  - apply (Hact (Temp i) (tempBlock th gpu i)); [apply elem_of_tracked; naive_solver|].
    cbn [blockOf]. by rewrite Hg.
Qed.

Lemma per_device_keys_by_position_witness :
  gpus twoDevices !! 1 = Some deviceB /\
  ~ gpuKey 1 ∈ Fx.alerts (Fx.exec (checkThresholds DEFAULT_THRESHOLDS twoDevices) idle).
Proof.
  split; [reflexivity|].
  destruct (per_device_keys_by_position DEFAULT_THRESHOLDS twoDevices idle 1
              deviceB eq_refl) as (_ & _ & Hutil & _).
  intros Hk. apply Hutil in Hk. vm_compute in Hk. discriminate Hk.
Defined.

(* ====================================================================== *)
(** ** C10: saving thresholds resets the alerts *)
(* ====================================================================== *)

Lemma fresh_alerts_from_empty th data shown m v :
  m ∈ tracked data ->
  reading data m = Some v ->
  (isTemperature m = true -> Js.truthy (Some v) = true) ->
  (v >=? limit th m)%float = true ->
  let w := Fx.exec (checkThresholds th data)
             {| Fx.alerts := ∅; Fx.shown := shown |} in
  alertKey m ∈ Fx.alerts w /\
  Fx.shown w = shown ++ (tracked data ≫= eventsOf th data ∅) /\
  exists toast, eventsOf th data ∅ m = [toast] /\
                type toast = severity m /\
                toast ∈ Fx.shown w.
Proof.
  intros Hm Hv Ht Hge. cbn zeta.
  destruct (checkThresholds_spec th data
              {| Fx.alerts := ∅; Fx.shown := shown |}) as (Hs & Hin & _).
  cbn [Fx.alerts Fx.shown] in Hs, Hin.
  destruct (blockOf_tracked th data m Hm) as (b & Hb & Hty & Hval & _).
  destruct (Hval v Hv Ht) as [Hfire _].
  assert (Hev : eventsOf th data ∅ m = [b_toast b]).
  { unfold eventsOf, fires. rewrite Hb, Hfire, Hge.
    by rewrite bool_decide_eq_true_2 by set_solver. }
  split_and!.
  - apply (Hin m Hm). unfold activeAfter, fires. rewrite Hb, Hfire, Hge.
    by rewrite bool_decide_eq_true_2 by set_solver.
  - exact Hs.
  - exists (b_toast b). split_and!; [exact Hev | exact Hty |].
    rewrite Hs. apply elem_of_app. right. apply list_elem_of_bind.
    exists m. split; [|exact Hm]. rewrite Hev. by left.
Qed.

Lemma quiet_advance JSON_stringify l c :
  evaluates l = false ->
  toasts (page (advance JSON_stringify l c)) = toasts (page c) /\
  (alertedRef (page (advance JSON_stringify l c)) = alertedRef (page c) \/
   alertedRef (page (advance JSON_stringify l c)) = ∅).
Proof.
  intros Hl. destruct c as [p u].
  destruct l as [e|]; [|split; [reflexivity | by left]].
  assert (Hstep : toasts (step JSON_stringify e p) = toasts p /\
                  (alertedRef (step JSON_stringify e p) = alertedRef p \/
                   alertedRef (step JSON_stringify e p) = ∅)).
  { destruct e as [[]| | | |i [data|err]|th]; try discriminate Hl; cbn [step];
      try (split; [reflexivity | by left]).
    - unfold tick. destruct (interval p); split; try reflexivity; by left.
    - unfold settle. destruct (pending p !! i); split; try reflexivity; by left.
    - split; [reflexivity | by right]. }
  unfold advance. cbn [page unmounted]. destruct u; [|exact Hstep].
  destruct (reachesUnmounted e); [exact Hstep|].
  split; [reflexivity | by left].
Qed.

Lemma quiet_live JSON_stringify trace c :
  Forall (fun l => evaluates l = false) trace ->
  alertedRef (page c) = ∅ ->
  toasts (page (live JSON_stringify trace c)) = toasts (page c) /\
  alertedRef (page (live JSON_stringify trace c)) = ∅.
Proof.
  intros Htrace. revert c. induction Htrace as [|l trace Hl _ IH]; intros c Hc.
  - done.
  - cbn [live foldl]. fold (live JSON_stringify trace (advance JSON_stringify l c)).
    destruct (quiet_advance JSON_stringify l c Hl) as [Ht Ha].
    destruct (IH (advance JSON_stringify l c)) as [IHt IHa].
    + destruct Ha as [Ha|Ha]; congruence.
    + split; congruence.
Qed.

Lemma late_evaluation JSON_stringify c i closedOver data :
  pending (page c) !! i = Some closedOver ->
  let next := page (advance JSON_stringify
                      (Happens (FetchSettles i (Resolved data))) c) in
  let w := Fx.exec (checkThresholds closedOver data)
             {| Fx.alerts := alertedRef (page c); Fx.shown := toasts (page c) |} in
  alertedRef next = Fx.alerts w /\ toasts next = Fx.shown w.
Proof.
  intros Hp. destruct c as [p u]. cbn [page] in Hp.
  unfold advance. cbn [page unmounted reachesUnmounted step].
  unfold settle. rewrite Hp. destruct u; split; reflexivity.
Qed.

(** C10 as stated fails in two ways.  First, for a temperature of exactly
    zero: the page had raised the temperature alert of its device; the
    thresholds are saved with the temperature threshold at 0; the next
    snapshot reads 0 °C, which is at its threshold, and no toast is shown.
    Second, when a fetch is waiting at the save: it evaluates with the
    thresholds it closed over.  The CPU threshold is lowered from 90 to 50
    while the first fetch is waiting; that fetch resolves with the CPU at
    60, which is above the new threshold, and the evaluation that follows
    the save shows no toast. *)
Lemma thresholds_live JSON_stringify trace c :
  Forall (fun l => savesThresholds l = false) trace ->
  thresholds (page (live JSON_stringify trace c)) = thresholds (page c).
Proof.
  intros Htrace. revert c. induction Htrace as [|l trace Hl _ IH]; intros c.
  - done.
  - cbn [live foldl]. fold (live JSON_stringify trace (advance JSON_stringify l c)).
    rewrite IH. destruct c as [p u].
    destruct l as [e|]; [|reflexivity].
    unfold advance. cbn [page unmounted].
    destruct u; [by destruct (reachesUnmounted e)|].
    destruct e as [[]| | | |i [data|err]|th]; try discriminate Hl; cbn [step];
      try reflexivity.
    + unfold tick. by destruct (interval p).
    + unfold settle. by destruct (pending p !! i).
    + unfold settle. by destruct (pending p !! i).
Qed.

Lemma zero_temperature_not_realerted_after_save :
  (let saved := handleSaveThresholds noText zeroTemperatureLimit alertedPage in
   let next := runCheckThresholds (thresholds saved) freezing saved in
   alertedRef alertedPage = {[tempKey 0]} /\
   reading freezing (Temp 0) = Some 0%float /\
   (0 >=? limit (thresholds saved) (Temp 0))%float = true /\
   alertedRef saved = ∅ /\
   toasts next = toasts alertedPage /\
   alertedRef next = ∅) /\
  (let saved := handleSaveThresholds noText lowCpuLimit mounted in
   let next := settle 0 (Resolved (snapshot 60 [])) saved in
   pending mounted = [DEFAULT_THRESHOLDS] /\
   thresholds saved = lowCpuLimit /\
   reading (snapshot 60 []) Cpu = Some 60%float /\
   (60 >=? limit (thresholds saved) Cpu)%float = true /\
   metrics next = Some (snapshot 60 []) /\
   toasts next = [] /\
   alertedRef next = ∅).
Proof. cbn zeta. split_and!; vm_compute; reflexivity. Qed.

(** C10, as the code has it.  Saving thresholds replaces the
    configuration, writes it to storage and empties the active alert set,
    whatever the set and the configuration were; the set stays empty and
    no toast is shown until a fetch resolves, whatever else happens in
    between (ticks, failed fetches, the effect running again, further
    saves, the page unmounting).  In the evaluation of the first fetch
    that resolves after the save, every tracked metric whose reading is
    at or above the threshold this evaluation uses -- for a temperature,
    a truthy reading -- shows one toast and becomes active, whether or
    not it was active before the save.  The evaluation uses the
    thresholds its fetch closed over: the saved ones for a fetch issued
    after the save and before any further save, and the ones in force
    when it was issued for a fetch that was waiting at the save, which
    the save leaves as they are. *)
Theorem save_resets_alerts (JSON_stringify : ThresholdConfig -> string)
    (newThresholds : ThresholdConfig) (p : Page) :
  let saved := handleSaveThresholds JSON_stringify newThresholds p in
  alertedRef saved = ∅ /\
  thresholds saved = newThresholds /\
  toasts saved = toasts p /\
  localStorage saved = saveThresholds JSON_stringify newThresholds (localStorage p) /\
  (forall data m v,
    m ∈ tracked data ->
    reading data m = Some v ->
    (isTemperature m = true -> Js.truthy (Some v) = true) ->
    (v >=? limit newThresholds m)%float = true ->
    let next := runCheckThresholds (thresholds saved) data saved in
    alertKey m ∈ alertedRef next /\
    toasts next = toasts p ++ (tracked data ≫= eventsOf newThresholds data ∅) /\
    exists toast, eventsOf newThresholds data ∅ m = [toast] /\
                  type toast = severity m /\
                  toast ∈ toasts next) /\
  pending saved = pending p /\
  (forall between,
     Forall (fun l => savesThresholds l = false) between ->
     let later := page (live JSON_stringify between (mount saved)) in
     thresholds later = newThresholds /\
     pending (fetchMetrics_call later) = pending later ++ [newThresholds]) /\
  forall between i closedOver data,
    Forall (fun l => evaluates l = false) between ->
    let before := live JSON_stringify between (mount saved) in
    pending (page before) !! i = Some closedOver ->
    let next := page (advance JSON_stringify
                        (Happens (FetchSettles i (Resolved data))) before) in
    alertedRef (page before) = ∅ /\
    toasts (page before) = toasts p /\
    toasts next = toasts p ++ (tracked data ≫= eventsOf closedOver data ∅) /\
    forall m v,
      m ∈ tracked data ->
      reading data m = Some v ->
      (isTemperature m = true -> Js.truthy (Some v) = true) ->
      (v >=? limit closedOver m)%float = true ->
      alertKey m ∈ alertedRef next /\
      exists toast, eventsOf closedOver data ∅ m = [toast] /\
                    type toast = severity m /\
                    toast ∈ toasts next.
Proof.
  cbn zeta. split_and!; try reflexivity.
  - intros data m v Hm Hv Ht Hge.
    unfold handleSaveThresholds, runCheckThresholds.
    cbn [clearAlerted withLocalStorage setThresholds thresholds alertedRef toasts].
    exact (fresh_alerts_from_empty newThresholds data (toasts p) m v Hm Hv Ht Hge).
  - intros between Hbetween.
    assert (Hth := thresholds_live JSON_stringify between
              (mount (handleSaveThresholds JSON_stringify newThresholds p))
              Hbetween).
    cbn [mount page handleSaveThresholds clearAlerted thresholds
         withLocalStorage setThresholds] in Hth.
    split; [exact Hth|]. unfold fetchMetrics_call. cbn [withPending pending].
    by rewrite Hth.
  - intros between i closedOver data Hquiet Hp.
    destruct (quiet_live JSON_stringify between
                (mount (handleSaveThresholds JSON_stringify newThresholds p))
                Hquiet eq_refl) as [Ht Ha].
    cbn [mount page handleSaveThresholds clearAlerted toasts withLocalStorage
         setThresholds] in Ht.
    destruct (late_evaluation JSON_stringify _ i closedOver data Hp) as [Hna Hnt].
    rewrite Ha, Ht in Hna, Hnt.
    split_and!; [exact Ha | exact Ht | |].
    + rewrite Hnt.
      destruct (checkThresholds_spec closedOver data
                  {| Fx.alerts := ∅; Fx.shown := toasts p |}) as (Hs & _).
      exact Hs.
    + intros m v Hm Hv Htr Hge. rewrite Hna, Hnt.
      destruct (fresh_alerts_from_empty closedOver data (toasts p) m v
                  Hm Hv Htr Hge) as (H1 & _ & H3).
      split; [exact H1 | exact H3].
Qed.

Lemma save_resets_alerts_witness :
  let saved := handleSaveThresholds noText DEFAULT_THRESHOLDS alertedPage in
  alertedRef alertedPage = {[tempKey 0]} /\
  alertedRef saved = ∅ /\
  tempKey 0 ∈ alertedRef (runCheckThresholds (thresholds saved) hot saved) /\
  tempKey 0 ∈ alertedRef
    (page (advance noText (Happens (FetchSettles 0 (Resolved hot)))
             (live noText [Happens RunCleanup; Happens (RunEffect true)]
                (mount saved)))).
Proof.
  cbn zeta.
  destruct (save_resets_alerts noText DEFAULT_THRESHOLDS alertedPage)
    as (Hempty & _ & _ & _ & Hnext & _ & _ & Hlater).
  assert (Hhot : Temp 0 ∈ tracked hot).
  { apply elem_of_tracked. right; right; right. exists 0. simpl. split; [lia|tauto]. }
  split_and!; [vm_compute; reflexivity | exact Hempty | |].
  - apply (Hnext hot (Temp 0) 90%float);
      [exact Hhot | reflexivity | reflexivity | reflexivity].
  - assert (Hquiet : Forall (fun l => evaluates l = false)
              [Happens RunCleanup; Happens (RunEffect true)])
      by (apply Forall_cons; split; [reflexivity|];
          apply Forall_cons; split; [reflexivity | apply Forall_nil_2]).
    destruct (Hlater [Happens RunCleanup; Happens (RunEffect true)] 0
                DEFAULT_THRESHOLDS hot Hquiet eq_refl) as (_ & _ & _ & Hm).
    apply (Hm (Temp 0) 90%float);
      [exact Hhot | reflexivity | reflexivity | reflexivity].
Defined.

(** A fetch that was waiting at the save is evaluated first, with the
    thresholds it closed over.  The CPU threshold is lowered from 90 to 50
    while the first fetch is waiting, and the effect runs again.  The
    waiting fetch resolves with the CPU at 95 and raises the alert, under
    the old threshold; the fetch issued after the save, the first to use
    the saved thresholds, then reads 95 as well and shows nothing, the key
    being active already. *)
Example waiting_fetch_alerts_before_saved_thresholds :
  let saved := handleSaveThresholds noText lowCpuLimit mounted in
  let rerun := effect true (cleanup saved) in
  let first := settle 0 (Resolved (snapshot 95 [])) rerun in
  let second := settle 0 (Resolved (snapshot 95 [])) first in
  pending rerun = [DEFAULT_THRESHOLDS; lowCpuLimit] /\
  alertedRef rerun = ∅ /\
  length (toasts first) = 1 /\
  alertedRef first = {["cpu"]} /\
  pending first = [lowCpuLimit] /\
  (95 >=? limit lowCpuLimit Cpu)%float = true /\
  toasts second = toasts first /\
  alertedRef second = {["cpu"]}.
Proof. cbn zeta. split_and!; vm_compute; reflexivity. Qed.

(* ====================================================================== *)
(** ** C8: loading the persisted thresholds *)
(* ====================================================================== *)

Lemma defaults_complete k :
  k ∈ thresholdKeys -> is_Some (configObject DEFAULT_THRESHOLDS !! k).
Proof.
  unfold thresholdKeys. rewrite !elem_of_cons, elem_of_nil.
  intros [->|[->|[->|[->|[->|[->|[->|[->|[]]]]]]]]]; by eexists.
Qed.

Lemma spread_lookup (a b : gmap string JsValue) k :
  spread a b !! k = match b !! k with Some v => Some v | None => a !! k end.
Proof.
  unfold spread. rewrite lookup_union.
  destruct (b !! k), (a !! k); reflexivity.
Qed.

Lemma defaults_numbers k :
  k ∈ thresholdKeys ->
  exists n, configObject DEFAULT_THRESHOLDS !! k = Some (JNumber n).
Proof.
  unfold thresholdKeys. rewrite !elem_of_cons, elem_of_nil.
  intros [->|[->|[->|[->|[->|[->|[->|[->|[]]]]]]]]]; by eexists.
Qed.

Lemma asThresholdConfig_numbers (o : gmap string JsValue) :
  is_Some (asThresholdConfig o) <->
  forall k, k ∈ thresholdKeys -> exists n, o !! k = Some (JNumber n).
Proof.
  unfold asThresholdConfig, numberProp. split.
  - intros [c Hc] k.
    destruct (o !! "cpu") as [[]|] eqn:E1; try discriminate Hc.
    destruct (o !! "memory") as [[]|] eqn:E2; try discriminate Hc.
    destruct (o !! "swap") as [[]|] eqn:E3; try discriminate Hc.
    destruct (o !! "gpu") as [[]|] eqn:E4; try discriminate Hc.
    destruct (o !! "gpuMemory") as [[]|] eqn:E5; try discriminate Hc.
    destruct (o !! "temperature") as [[]|] eqn:E6; try discriminate Hc.
    destruct (o !! "diskIO") as [[]|] eqn:E7; try discriminate Hc.
    destruct (o !! "networkIO") as [[]|] eqn:E8; try discriminate Hc.
    unfold thresholdKeys. rewrite !elem_of_cons, elem_of_nil.
    intros [->|[->|[->|[->|[->|[->|[->|[->|[]]]]]]]]]; by eexists.
  - intros H.
    destruct (H "cpu") as [? ->]; [unfold thresholdKeys; set_solver|].
    destruct (H "memory") as [? ->]; [unfold thresholdKeys; set_solver|].
    destruct (H "swap") as [? ->]; [unfold thresholdKeys; set_solver|].
    destruct (H "gpu") as [? ->]; [unfold thresholdKeys; set_solver|].
    destruct (H "gpuMemory") as [? ->]; [unfold thresholdKeys; set_solver|].
    destruct (H "temperature") as [? ->]; [unfold thresholdKeys; set_solver|].
    destruct (H "diskIO") as [? ->]; [unfold thresholdKeys; set_solver|].
    destruct (H "networkIO") as [? ->]; [unfold thresholdKeys; set_solver|].
    by eexists.
Qed.

(** C8 as stated fails: the stored values are not validated, so the result
    need not be a threshold configuration.  With the stored record
    [{"cpu":"80","memory":null}] the loaded object has the eight fields,
    but its [cpu] is a string and its [memory] is [null]. *)
Lemma stored_values_are_not_validated :
  let loaded := loadThresholds parseMistyped mistypedStorage in
  getItem mistypedStorage STORAGE_KEY = Some (Some mistypedText) /\
  parseMistyped mistypedText = Some (JObject mistypedRecord) /\
  loaded !! "cpu" = Some (JString [56%N; 48%N]) /\
  loaded !! "memory" = Some JNull /\
  asThresholdConfig loaded = None.
Proof. cbn zeta. split_and!; vm_compute; reflexivity. Qed.

(** C8, as the code has it.  [loadThresholds] is total and its result
    always has the eight fields of a threshold configuration.  When the
    stored text parses, the result is the parsed record spread over the
    defaults: a field the record has keeps its persisted value, whatever
    that value is, and a field it lacks (for example "gpuMemory") has its
    default; the result is a threshold configuration, with a number in
    each of the eight fields, exactly when every threshold field the
    record has holds a number.  When the storage cannot be read, holds
    nothing or an empty text under the key, or the text does not parse,
    the result is the defaults. *)
Theorem loadThresholds_merges_over_defaults
    (JSON_parse : string -> option JsValue) (ls : LocalStorage) :
  let loaded := loadThresholds JSON_parse ls in
  let defaults := configObject DEFAULT_THRESHOLDS in
  (forall k, k ∈ thresholdKeys -> is_Some (loaded !! k)) /\
  (forall saved parsed,
     getItem ls STORAGE_KEY = Some (Some saved) -> saved ≠ "" ->
     JSON_parse saved = Some parsed ->
     forall k, loaded !! k = match ownProps parsed !! k with
                             | Some v => Some v
                             | None => defaults !! k
                             end) /\
  (forall saved record,
     getItem ls STORAGE_KEY = Some (Some saved) -> saved ≠ "" ->
     JSON_parse saved = Some (JObject record) ->
     record !! "gpuMemory" = None ->
     loaded !! "gpuMemory" = Some (JNumber (th_gpuMemory DEFAULT_THRESHOLDS)) /\
     forall k v, record !! k = Some v -> loaded !! k = Some v) /\
  (forall saved parsed,
     getItem ls STORAGE_KEY = Some (Some saved) -> saved ≠ "" ->
     JSON_parse saved = Some parsed ->
     (is_Some (asThresholdConfig loaded) <->
      forall k v, k ∈ thresholdKeys -> ownProps parsed !! k = Some v ->
                  exists n, v = JNumber n)) /\
  (getItem ls STORAGE_KEY = None \/
   getItem ls STORAGE_KEY = Some None \/
   getItem ls STORAGE_KEY = Some (Some "") \/
   (exists saved, getItem ls STORAGE_KEY = Some (Some saved) /\
                  JSON_parse saved = None) ->
   loaded = defaults /\ asThresholdConfig loaded = Some DEFAULT_THRESHOLDS).
Proof.
  cbn zeta.
  assert (Hmerge : forall saved parsed,
     getItem ls STORAGE_KEY = Some (Some saved) -> saved ≠ "" ->
     JSON_parse saved = Some parsed ->
     loadThresholds JSON_parse ls
     = spread (configObject DEFAULT_THRESHOLDS) (ownProps parsed)).
  { intros saved parsed Hget Hne Hparse. unfold loadThresholds.
    by rewrite Hget, bool_decide_eq_true_2, Hparse. }
  split_and!.
  - intros k Hk. apply defaults_complete in Hk. unfold loadThresholds.
    destruct (getItem ls STORAGE_KEY) as [[saved|]|]; try done.
    case_bool_decide; [|done].
    destruct (JSON_parse saved) as [parsed|]; [|done].
    rewrite spread_lookup. by destruct (ownProps parsed !! k).
  - intros saved parsed Hget Hne Hparse k.
    by rewrite (Hmerge _ _ Hget Hne Hparse), spread_lookup.
  - intros saved record Hget Hne Hparse Hmissing.
    rewrite (Hmerge _ _ Hget Hne Hparse). cbn [ownProps]. split.
    + by rewrite spread_lookup, Hmissing.
    + intros k v Hk. by rewrite spread_lookup, Hk.
  - intros saved parsed Hget Hne Hparse.
    rewrite (Hmerge _ _ Hget Hne Hparse), asThresholdConfig_numbers. split.
    + intros H k v Hk Hv. destruct (H k Hk) as [n Hn].
      rewrite spread_lookup, Hv in Hn. exists n. congruence.
    + intros H k Hk. rewrite spread_lookup.
      destruct (ownProps parsed !! k) as [v|] eqn:Hv.
      * destruct (H k v Hk Hv) as [n ->]. by exists n.
      * by apply defaults_numbers.
  - assert (Hd : loadThresholds JSON_parse ls = configObject DEFAULT_THRESHOLDS ->
                 loadThresholds JSON_parse ls = configObject DEFAULT_THRESHOLDS /\
                 asThresholdConfig (loadThresholds JSON_parse ls)
                 = Some DEFAULT_THRESHOLDS).
    { intros ->. split; reflexivity. }
    intros H. apply Hd. unfold loadThresholds.
    destruct H as [->|[->|[->|(saved & -> & Hparse)]]]; try reflexivity.
    rewrite Hparse. by case_bool_decide.
Qed.

Lemma loadThresholds_merges_over_defaults_witness :
  let loaded := loadThresholds parseSaved savedStorage in
  getItem savedStorage STORAGE_KEY = Some (Some savedText) /\
  parseSaved savedText = Some (JObject savedRecord) /\
  loaded !! "gpuMemory" = Some (JNumber 90) /\
  loaded !! "cpu" = Some (JNumber 80) /\
  loaded !! "temperature" = Some (JNumber 0).
Proof.
  cbn zeta.
  destruct (loadThresholds_merges_over_defaults parseSaved savedStorage)
    as (_ & _ & Hrecord & _).
  destruct (Hrecord savedText savedRecord) as [Hdefault Hkept];
    [reflexivity | discriminate | reflexivity | reflexivity |].
  split_and!; [reflexivity | reflexivity | exact Hdefault
              | by apply Hkept | by apply Hkept].
Defined.

(** A stored record is not validated: a threshold of 0 reaches the
    evaluator through [loadThresholds]. *)
Example loaded_zero_temperature_limit :
  asThresholdConfig (loadThresholds parseSaved savedStorage)
  = Some (withTemperatureLimit 0
            {| th_cpu := 80; th_memory := 85; th_swap := 75; th_gpu := 90;
               th_gpuMemory := 90; th_temperature := 85; th_diskIO := 500;
               th_networkIO := 100 |}).
Proof. vm_compute. reflexivity. Qed.

(* ====================================================================== *)
(** ** The end-to-end scenario of the specification *)
(* ====================================================================== *)

(** With the CPU threshold at 90, the fetch issued at mount resolving
    with the CPU at 50 and three polls reading 92, 93 and 60 show exactly
    one toast, at 92, leave the four values in the CPU history and no key
    active (60 is below 81). *)
Example four_polls :
  let first := settle 0 (Resolved (snapshot 50 [])) mounted in
  let p := foldl (fun p v => poll (snapshot v []) p) first [92; 93; 60]%float in
  pending p = [] /\
  h_cpu (historicalData p) = [50; 92; 93; 60]%float /\
  toasts p = [ {| type := Toast.warning;
                  message := {| msg_prefix := "CPU critical: "; msg_value := 92;
                                msg_suffix := "%" |};
                  duration := 5000 |} ] /\
  alertedRef p = ∅.
Proof. cbn zeta. split_and!; vm_compute; reflexivity. Qed.

(* ====================================================================== *)
(** ** Further properties: comparisons of binary64 numbers *)
(* ====================================================================== *)

(** Case analysis on the comparisons [SFcompare] makes. *)
Ltac cmp_cases :=
  repeat match goal with
  | H : context [Z.compare ?a ?b] |- _ => destruct (Z.compare_spec a b)
  | |- context [Z.compare ?a ?b] => destruct (Z.compare_spec a b)
  | H : context [Pos.compare_cont Eq ?a ?b] |- _ =>
      change (Pos.compare_cont Eq a b) with (Pos.compare a b) in *;
      destruct (Pos.compare_spec a b)
  | |- context [Pos.compare_cont Eq ?a ?b] =>
      change (Pos.compare_cont Eq a b) with (Pos.compare a b) in *;
      destruct (Pos.compare_spec a b)
  end.

Lemma SF_lt_le_trans (a b c : spec_float) :
  SFltb a b = true -> SFleb b c = true -> SFltb a c = true.
Proof.
  unfold SFltb, SFleb, SFcompare.
  destruct a as [[]|[]| |[] ma ea], b as [[]|[]| |[] mb eb], c as [[]|[]| |[] mc ec];
    try (intros; discriminate); try reflexivity;
    intros H1 H2; cmp_cases; subst; simpl in *;
    try discriminate; try reflexivity; try lia.
Qed.

Lemma SF_lt_not_ge (a b : spec_float) :
  SFltb a b = true -> SFleb b a = false.
Proof.
  unfold SFltb, SFleb, SFcompare.
  destruct a as [[]|[]| |[] ma ea], b as [[]|[]| |[] mb eb];
    try (intros; discriminate); try reflexivity;
    intros H1; cmp_cases; subst; simpl in *;
    try discriminate; try reflexivity; try lia.
Qed.

Lemma SF_not_lt_ge (a b : spec_float) :
  a <> S754_nan -> b <> S754_nan -> SFltb a b = false -> SFleb b a = true.
Proof.
  unfold SFltb, SFleb, SFcompare.
  destruct a as [[]|[]| |[] ma ea], b as [[]|[]| |[] mb eb];
    try (intros; discriminate); try reflexivity; try congruence;
    intros _ _ H1; cmp_cases; subst; simpl in *;
    try discriminate; try reflexivity; try lia.
Qed.

Lemma lt_ge_trans (v c t : Js.number) :
  Js.lt v c = true -> Js.ge t c = true -> Js.lt v t = true.
Proof.
  unfold Js.lt, Js.ge. rewrite !FloatAxioms.ltb_spec, FloatAxioms.leb_spec.
  apply SF_lt_le_trans.
Qed.

Lemma lt_not_ge (v t : Js.number) : Js.lt v t = true -> Js.ge v t = false.
Proof.
  unfold Js.lt, Js.ge. rewrite FloatAxioms.ltb_spec, FloatAxioms.leb_spec.
  apply SF_lt_not_ge.
Qed.

Lemma ge_not_below (v c t : Js.number) :
  Js.ge t c = true -> Js.ge v t = true -> Js.lt v c = false.
Proof.
  intros Hc Hv. destruct (Js.lt v c) eqn:Hlt; [|done].
  by rewrite (lt_not_ge _ _ (lt_ge_trans _ _ _ Hlt Hc)) in Hv.
Qed.

Lemma not_lt_ge (v t : Js.number) :
  PrimFloat.is_nan v = false -> PrimFloat.is_nan t = false ->
  Js.lt v t = false -> Js.ge v t = true.
Proof.
  unfold Js.lt, Js.ge, PrimFloat.is_nan.
  rewrite !FloatAxioms.eqb_spec, FloatAxioms.ltb_spec, FloatAxioms.leb_spec.
  intros Hv Ht. apply SF_not_lt_ge.
  - intros E. rewrite E in Hv. discriminate Hv.
  - intros E. rewrite E in Ht. discriminate Ht.
Qed.

Lemma ge_not_nan (a b : Js.number) :
  Js.ge a b = true -> PrimFloat.is_nan a = false /\ PrimFloat.is_nan b = false.
Proof.
  unfold Js.ge, PrimFloat.is_nan.
  rewrite !FloatAxioms.eqb_spec, FloatAxioms.leb_spec.
  unfold SFleb, SFeqb, SFcompare.
  destruct (Prim2SF a) as [[]|[]| |[] ma ea], (Prim2SF b) as [[]|[]| |[] mb eb];
    try discriminate; intros _; split; try reflexivity;
    rewrite ?Z.compare_refl, ?Pos.compare_cont_refl; reflexivity.
Qed.

Lemma zero_below_positive (v c : Js.number) :
  PrimFloat.is_zero v = true -> (c >? 0)%float = true -> Js.lt v c = true.
Proof.
  unfold PrimFloat.is_zero, Js.gt, Js.lt.
  rewrite FloatAxioms.eqb_spec, !FloatAxioms.ltb_spec.
  change (Prim2SF 0) with (S754_zero false).
  destruct (Prim2SF v) as [[]|[]| |[] mv ev], (Prim2SF c) as [[]|[]| |[] mc ec];
    cbv; congruence.
Qed.

(* ====================================================================== *)
(** ** Further properties of the evaluator *)
(* ====================================================================== *)

Global Instance Metric_eq_dec : EqDecision Metric.
Proof. solve_decision. Defined.

(** The key of any metric, tracked in the snapshot or not, after an
    evaluation. *)
Lemma checkThresholds_key th data w m :
  alertKey m ∈ Fx.alerts (Fx.exec (checkThresholds th data) w) <->
  activeAfter th data (Fx.alerts w) m = true.
Proof.
  destruct (checkThresholds_spec th data w) as (_ & Hin & Hout).
  destruct (decide (m ∈ tracked data)) as [Hm|Hm]; [by apply Hin|].
  rewrite Hout by (intros m' Hm' Heq; apply (inj alertKey) in Heq; by subst).
  assert (blockOf th data m = None) as Hb.
  { destruct m as [| | |i|i|i]; try (exfalso; apply Hm, elem_of_tracked; tauto);
      cbn [blockOf]; destruct (gpus data !! i) eqn:Hi; try done;
      exfalso; apply Hm, elem_of_tracked; right; right; right; exists i;
      (split; [by eapply lookup_lt_Some | tauto]). }
  unfold activeAfter. rewrite Hb. by rewrite bool_decide_eq_true.
Qed.

Lemma tracked_fires_length th data A :
  length (tracked data ≫= eventsOf th data A)
  = length (filter (fun m => fires th data A m = true) (tracked data)).
Proof.
  induction (tracked data) as [|m ms IH]; [done|].
  rewrite bind_cons, length_app, IH, filter_cons.
  unfold eventsOf at 1.
  destruct (blockOf th data m) as [b|] eqn:Hb.
  - destruct (fires th data A m) eqn:Hf; case_decide; try done; cbn [length]; lia.
  - assert (fires th data A m = false) as Hf by (unfold fires; by rewrite Hb).
    rewrite Hf. case_decide; [done|]. cbn [length]. lia.
Qed.

(** X1.  An evaluation shows exactly as many toasts as it adds keys to the
    active set, and never more than three plus three per listed device. *)
Theorem one_toast_per_new_key th data w :
  let A := Fx.alerts w in
  let w' := Fx.exec (checkThresholds th data) w in
  exists new,
    Fx.shown w' = Fx.shown w ++ new /\
    length new = size (Fx.alerts w' ∖ A) /\
    length new <= 3 + 3 * length (gpus data).
Proof.
  intros A w'.
  destruct (checkThresholds_spec th data w) as (Hs & _ & _). fold A w' in Hs.
  exists (tracked data ≫= eventsOf th data A). split; [exact Hs|].
  rewrite tracked_fires_length.
  set (fired := filter (fun m => fires th data A m = true) (tracked data)).
  assert (Hset : Fx.alerts w' ∖ A = list_to_set (alertKey <$> fired)).
  { apply set_eq. intros k.
    rewrite elem_of_difference, elem_of_list_to_set, list_elem_of_fmap.
    split.
    - intros [Hk Hn].
      destruct (decide (k ∈ alertKey <$> tracked data))
        as [(m & -> & Hm)%list_elem_of_fmap|Hno].
      + exists m. split; [done|]. apply list_elem_of_filter. split; [|done].
        apply (checkThresholds_key th data w) in Hk. fold A in Hk.
        unfold activeAfter in Hk. unfold fires in *.
        destruct (blockOf th data m) as [b|];
          [|by apply bool_decide_eq_true in Hk].
        destruct (b_fire b && _); [done|].
        destruct (b_clear b); [done|]. by apply bool_decide_eq_true in Hk.
      + destruct (checkThresholds_spec th data w) as (_ & _ & Hout).
        exfalso. apply Hn, (Hout k); [|done]. intros m Hm Heq. apply Hno, list_elem_of_fmap. eauto.
    - intros (m & -> & [Hf Hm]%list_elem_of_filter). split.
      + apply (checkThresholds_key th data w). fold A. unfold activeAfter.
        pose proof Hf as Hf'. unfold fires in Hf'.
        destruct (blockOf th data m); [by rewrite Hf | done].
      + unfold fires in Hf. destruct (blockOf th data m); [|done].
        by apply andb_true_iff in Hf as [_ ?%bool_decide_eq_true]. }
  rewrite Hset. split.
  - rewrite size_list_to_set, length_fmap; [done|].
    apply NoDup_fmap_2; [apply _|]. apply NoDup_filter, NoDup_tracked.
  - etrans; [apply length_filter|]. unfold tracked.
    rewrite length_app. cbn [length].
    assert (forall n k, length (seq k n ≫= perDevice) = 3 * n) as ->; [|lia].
    induction n as [|n IH]; intros k; [done|].
    cbn [seq]. rewrite bind_cons, length_app, IH. simpl. lia.
Qed.

Lemma blockOf_toast th data m b :
  blockOf th data m = Some b -> b_fire b = true ->
  exists v, reading data m = Some v /\
            msg_value (message (b_toast b)) = v /\
            (v >=? limit th m)%float = true /\
            type (b_toast b) = severity m.
Proof.
  destruct m as [| | |i|i|i]; cbn [blockOf reading limit severity];
    try (intros [= <-] Hf; eexists; split_and!; [reflexivity..|exact Hf|reflexivity]);
    destruct (gpus data !! i) as [g|]; try discriminate;
    cbn [fmap option_fmap option_map mbind option_bind];
    intros [= <-] Hf.
  - eexists; split_and!; [reflexivity..|exact Hf|reflexivity].
  - eexists; split_and!; [reflexivity..|exact Hf|reflexivity].
  - cbn [tempBlock b_fire b_toast message msg_value type] in *.
    unfold compose.
    destruct (temperature_celsius (current g)) as [c|];
      [|by rewrite andb_false_r in Hf].
    apply andb_true_iff in Hf as [_ Hf].
    exists c. split_and!; done.
Qed.

(** X2.  No false alarm: every toast an evaluation shows belongs to a
    tracked metric whose current value is at or above its threshold and
    whose key was not active before and is active afterwards; the toast
    reports that value, with the metric's severity. *)
Theorem toasts_only_at_or_above_limit th data w :
  let A := Fx.alerts w in
  let w' := Fx.exec (checkThresholds th data) w in
  exists new,
    Fx.shown w' = Fx.shown w ++ new /\
    forall toast, toast ∈ new ->
      exists m v,
        m ∈ tracked data /\
        reading data m = Some v /\
        (v >=? limit th m)%float = true /\
        (alertKey m ∉ A) /\
        alertKey m ∈ Fx.alerts w' /\
        msg_value (message toast) = v /\
        type toast = severity m.
Proof.
  intros A w'.
  destruct (checkThresholds_spec th data w) as (Hs & Hin & _). fold A w' in Hs, Hin.
  exists (tracked data ≫= eventsOf th data A). split; [exact Hs|].
  intros toast (m & Ht & Hm)%list_elem_of_bind.
  unfold eventsOf in Ht. pose proof (Hin m Hm) as Hk.
  unfold activeAfter in Hk. unfold fires in *.
  destruct (blockOf th data m) as [b|] eqn:Hb; [|by apply elem_of_nil in Ht].
  destruct (b_fire b && _) eqn:Hf; [|by apply elem_of_nil in Ht].
  apply list_elem_of_singleton in Ht as ->.
  apply andb_true_iff in Hf as [Hfire Hn%bool_decide_eq_true].
  destruct (blockOf_toast th data m b Hb Hfire) as (v & Hv & Hmsg & Hge & Hty).
  exists m, v. split_and!; try done. by apply Hk.
Qed.

(** X3.  An evaluation never touches the keys of a position beyond the
    end of [data.gpus]: the alerts of a device that is no longer listed
    are neither cleared nor raised, and show no toast. *)
Theorem unlisted_device_keys_untouched th data w i :
  length (gpus data) <= i ->
  let A := Fx.alerts w in
  let A' := Fx.alerts (Fx.exec (checkThresholds th data) w) in
  (gpuKey i ∈ A' <-> gpuKey i ∈ A) /\
  (gpuMemKey i ∈ A' <-> gpuMemKey i ∈ A) /\
  (tempKey i ∈ A' <-> tempKey i ∈ A) /\
  eventsOf th data A (GpuUtil i) = [] /\
  eventsOf th data A (GpuMem i) = [] /\
  eventsOf th data A (Temp i) = [].
Proof.
  intros Hi A A'. apply lookup_ge_None_2 in Hi.
  pose proof (checkThresholds_key th data w (GpuUtil i)) as H1.
  pose proof (checkThresholds_key th data w (GpuMem i)) as H2.
  pose proof (checkThresholds_key th data w (Temp i)) as H3.
  unfold activeAfter, eventsOf in *. cbn [blockOf alertKey] in *.
  rewrite Hi in *. cbn [fmap option_fmap option_map] in *.
  rewrite bool_decide_eq_true in H1, H2, H3. done.
Qed.

Lemma unlisted_device_keys_untouched_witness :
  gpuKey 1 ∈ Fx.alerts (Fx.exec (checkThresholds DEFAULT_THRESHOLDS onlyDeviceA)
                          {| Fx.alerts := {[gpuKey 1]}; Fx.shown := [] |}).
Proof.
  apply (unlisted_device_keys_untouched DEFAULT_THRESHOLDS onlyDeviceA
           {| Fx.alerts := {[gpuKey 1]}; Fx.shown := [] |} 1); [simpl; lia|].
  cbn [Fx.alerts]. set_solver.
Defined.






(* ====================================================================== *)
(** ** The evaluator over a stream of snapshots *)
(* ====================================================================== *)

Lemma feed_snoc th stream data A :
  (feed th (stream ++ [data]) A).2
  = Fx.alerts (Fx.exec (checkThresholds th data)
                 {| Fx.alerts := (feed th stream A).2; Fx.shown := [] |}).
Proof.
  revert A. induction stream as [|d stream IH]; intros A; cbn [feed app].
  - reflexivity.
  - specialize (IH (Fx.alerts (Fx.exec (checkThresholds th d)
                                 {| Fx.alerts := A; Fx.shown := [] |}))).
    destruct (feed th (stream ++ [data]) _) as [e1 A1].
    destruct (feed th stream _) as [e2 A2]. exact IH.
Qed.

Lemma stateAt_S th stream A n data :
  stream !! n = Some data ->
  stateAt th stream A (S n)
  = Fx.alerts (Fx.exec (checkThresholds th data)
                 {| Fx.alerts := stateAt th stream A n; Fx.shown := [] |}).
Proof.
  intros Hn. unfold stateAt. rewrite (take_S_r _ _ _ Hn). apply feed_snoc.
Qed.

Lemma stateAt_key th stream A n data m :
  stream !! n = Some data ->
  alertKey m ∈ stateAt th stream A (S n) <->
  activeAfter th data (stateAt th stream A n) m = true.
Proof.
  intros Hn. rewrite (stateAt_S _ _ _ _ _ Hn). apply checkThresholds_key.
Qed.

(** X5.  Over a stream of snapshots evaluated in turn: a key that is
    active before evaluation [i] stays active, and its metric shows no
    toast, for as long as the metric's clear condition has not held.  So
    an alert that was raised is not raised again before it was cleared. *)
Theorem alert_latched_until_cleared th stream A m i j :
  i <= j <= length stream ->
  alertKey m ∈ stateAt th stream A i ->
  (forall k data, i <= k < j -> stream !! k = Some data -> clears th data m = false) ->
  alertKey m ∈ stateAt th stream A j /\
  forall k data, i <= k <= j -> stream !! k = Some data ->
    eventsOf th data (stateAt th stream A k) m = [].
Proof.
  intros [Hij Hj] Hi Hclear.
  assert (Hactive : forall k, i <= k <= j -> alertKey m ∈ stateAt th stream A k).
  { intros k [Hik Hkj]. induction k as [|k IH].
    - by replace i with 0 in Hi by lia.
    - destruct (decide (i = S k)) as [->|Hne]; [done|].
      assert (k < length stream) as [data Hd]%lookup_lt_is_Some_2 by lia.
      apply (stateAt_key _ _ _ _ _ _ Hd).
      assert (alertKey m ∈ stateAt th stream A k) as Hk by (apply IH; lia).
      pose proof (Hclear k data ltac:(lia) Hd) as Hc.
      unfold activeAfter, fires, clears in *.
      destruct (blockOf th data m) as [b|]; cbn [from_option] in *.
      + rewrite (bool_decide_eq_false_2 (alertKey m ∉ _)), andb_false_r, Hc
          by (intros Hno; by apply Hno).
        by apply bool_decide_eq_true.
      + by apply bool_decide_eq_true. }
  split; [apply Hactive; lia|].
  intros k data Hk Hd. specialize (Hactive k Hk).
  unfold eventsOf, fires. destruct (blockOf th data m); [|done].
  by rewrite (bool_decide_eq_false_2 (alertKey m ∉ _)), andb_false_r
    by (intros Hno; by apply Hno).
Qed.

Lemma alert_latched_until_cleared_witness :
  alertKey Cpu ∈ stateAt DEFAULT_THRESHOLDS (cpuStream [95; 85; 95]%float) ∅ 1 /\
  alertKey Cpu ∈ stateAt DEFAULT_THRESHOLDS (cpuStream [95; 85; 95]%float) ∅ 3.
Proof.
  assert (Hi : alertKey Cpu
               ∈ stateAt DEFAULT_THRESHOLDS (cpuStream [95; 85; 95]%float) ∅ 1).
  { assert (stateAt DEFAULT_THRESHOLDS (cpuStream [95; 85; 95]%float) ∅ 1
            = {["cpu"]}) as -> by (vm_compute; reflexivity).
    set_solver. }
  split; [exact Hi|].
  apply (alert_latched_until_cleared DEFAULT_THRESHOLDS
           (cpuStream [95; 85; 95]%float) ∅ Cpu 1 3); [simpl; lia | exact Hi |].
  intros k data Hk Hd.
  destruct k as [|[|[|k]]]; try lia; injection Hd as <-; reflexivity.
Defined.

(** X6.  Over a stream of snapshots evaluated in turn: a key that is not
    active before evaluation [i] stays inactive, and its metric shows no
    toast, for as long as the metric's entry condition has not held. *)
Theorem alert_quiet_until_raised th stream A m i j :
  i <= j <= length stream ->
  (alertKey m ∉ stateAt th stream A i) ->
  (forall k data, i <= k < j -> stream !! k = Some data -> raises th data m = false) ->
  (alertKey m ∉ stateAt th stream A j) /\
  forall k data, i <= k < j -> stream !! k = Some data ->
    eventsOf th data (stateAt th stream A k) m = [].
Proof.
  intros [Hij Hj] Hi Hquiet.
  assert (Hidle : forall k, i <= k <= j -> alertKey m ∉ stateAt th stream A k).
  { intros k [Hik Hkj]. induction k as [|k IH].
    - by replace i with 0 in Hi by lia.
    - destruct (decide (i = S k)) as [->|Hne]; [done|].
      assert (k < length stream) as [data Hd]%lookup_lt_is_Some_2 by lia.
      rewrite (stateAt_key _ _ _ _ _ _ Hd).
      assert (alertKey m ∉ stateAt th stream A k) as Hk by (apply IH; lia).
      pose proof (Hquiet k data ltac:(lia) Hd) as Hr.
      unfold activeAfter, fires, raises in *.
      destruct (blockOf th data m) as [b|]; cbn [from_option] in *.
      + rewrite Hr. cbn [andb]. destruct (b_clear b); [done|].
        by rewrite bool_decide_eq_false_2.
      + by rewrite bool_decide_eq_false_2. }
  split; [apply Hidle; lia|].
  intros k data Hk Hd. pose proof (Hquiet k data Hk Hd) as Hr.
  unfold eventsOf, fires, raises in *.
  destruct (blockOf th data m); cbn [from_option] in *; [|done]. by rewrite Hr.
Qed.

Lemma alert_quiet_until_raised_witness :
  alertKey Cpu ∉ stateAt DEFAULT_THRESHOLDS (cpuStream [50; 85; 89]%float) ∅ 3.
Proof.
  apply (alert_quiet_until_raised DEFAULT_THRESHOLDS
           (cpuStream [50; 85; 89]%float) ∅ Cpu 0 3); [simpl; lia | set_solver |].
  intros k data Hk Hd.
  destruct k as [|[|[|k]]]; try lia; injection Hd as <-; reflexivity.
Defined.

(* ====================================================================== *)
(** ** Panel status against the alert condition *)
(* ====================================================================== *)

Lemma status_critical_iff (v t : Js.number) :
  (t >=? t * 0.7)%float = true ->
  PrimFloat.is_nan v = false ->
  getStatusClass v (Some t) = Status.critical <-> (v >=? t)%float = true.
Proof.
  intros Hband Hv. destruct (ge_not_nan _ _ Hband) as [Ht _].
  unfold getStatusClass. cbn [Js.nullish]. split.
  - destruct (Js.lt v (t * 0.7)%float); [discriminate|].
    destruct (Js.lt v t) eqn:Hlt; [discriminate|]. intros _.
    by apply not_lt_ge.
  - intros Hge. rewrite (ge_not_below _ _ _ Hband Hge).
    destruct (Js.lt v t) eqn:Hlt; [|done].
    by rewrite (lt_not_ge _ _ Hlt) in Hge.
Qed.

(** X7.  For the CPU, memory, swap and first-GPU panels: when the reading
    is not NaN and the warning level [t * 0.7] is not above the threshold,
    the panel's status is critical exactly when the entry condition of the
    metric's alert holds, and the usage colour is the error colour exactly
    when the status is critical. *)
Theorem panel_critical_iff_alert_condition th data m v status :
  panelStatus th data m = Some status ->
  reading data m = Some v ->
  PrimFloat.is_nan v = false ->
  (limit th m >=? limit th m * 0.7)%float = true ->
  (status = Status.critical <-> raises th data m = true) /\
  (getUsageColor v (Some (limit th m)) = "var(--error)" <-> status = Status.critical).
Proof.
  intros Hst Hv Hnan Hband.
  assert (Hcls : status = getStatusClass v (Some (limit th m)) /\
                 raises th data m = (v >=? limit th m)%float).
  { destruct m as [| | |[|i]|i|i]; try discriminate Hst;
      cbn [panelStatus reading limit] in *; unfold raises; cbn [blockOf].
    1-3: injection Hst as <-; injection Hv as <-; done.
    unfold gpuStatus in Hst.
    destruct (gpus data !! 0) as [g|]; [|discriminate Hv].
    injection Hst as <-. injection Hv as <-. done. }
  destruct Hcls as [-> ->]. split; [by apply status_critical_iff|].
  unfold getUsageColor, getStatusClass. cbn [Js.nullish].
  destruct (Js.lt v (limit th m * 0.7)%float); [done|].
  by destruct (Js.lt v (limit th m)).
Qed.

Lemma panel_critical_iff_alert_condition_witness :
  cpuStatus DEFAULT_THRESHOLDS busyCpu = Status.critical <->
  raises DEFAULT_THRESHOLDS busyCpu Cpu = true.
Proof.
  apply (panel_critical_iff_alert_condition DEFAULT_THRESHOLDS busyCpu Cpu 95
           (cpuStatus DEFAULT_THRESHOLDS busyCpu));
    reflexivity.
Defined.

(* ====================================================================== *)
(** ** Saving and loading thresholds *)
(* ====================================================================== *)

Lemma configObject_dom th : dom (configObject th) = list_to_set thresholdKeys.
Proof. unfold configObject. rewrite dom_list_to_map_L. reflexivity. Qed.

Lemma spread_configObject th th' :
  spread (configObject th') (configObject th) = configObject th.
Proof.
  apply map_eq. intros k. rewrite spread_lookup.
  destruct (configObject th !! k) eqn:Hk; [done|].
  apply not_elem_of_dom. apply not_elem_of_dom in Hk.
  by rewrite configObject_dom in *.
Qed.

Lemma asThresholdConfig_configObject th :
  asThresholdConfig (configObject th) = Some th.
Proof. by destruct th. Qed.

(** X8.  Round trip: when the storage can be written and the runtime's
    [JSON.parse] reads back what [JSON.stringify] wrote for the
    configuration, loading after saving returns exactly the saved
    configuration; saving touches no other key of the storage. *)
Theorem saved_thresholds_load_back
    (JSON_parse : string -> option JsValue)
    (JSON_stringify : ThresholdConfig -> string)
    (th : ThresholdConfig) (ls : LocalStorage) :
  accessible ls = true ->
  quotaExceeded ls = false ->
  JSON_stringify th ≠ "" ->
  JSON_parse (JSON_stringify th) = Some (JObject (configObject th)) ->
  let ls' := saveThresholds JSON_stringify th ls in
  loadThresholds JSON_parse ls' = configObject th /\
  asThresholdConfig (loadThresholds JSON_parse ls') = Some th /\
  forall key, key ≠ STORAGE_KEY -> getItem ls' key = getItem ls key.
Proof.
  intros Hacc Hquota Hne Hparse ls'.
  assert (Hls : ls' = {| accessible := true; quotaExceeded := false;
                         items := <[STORAGE_KEY := JSON_stringify th]> (items ls) |}).
  { unfold ls', saveThresholds, setItem. by rewrite Hacc, Hquota. }
  assert (Hload : loadThresholds JSON_parse ls' = configObject th).
  { rewrite Hls. unfold loadThresholds, getItem. cbn [accessible items].
    rewrite lookup_insert_eq, bool_decide_eq_true_2, Hparse by done.
    cbn [ownProps]. apply spread_configObject. }
  split_and!; [exact Hload | by rewrite Hload, asThresholdConfig_configObject |].
  intros key Hkey. rewrite Hls. unfold getItem. cbn [accessible items].
  by rewrite Hacc, lookup_insert_ne.
Qed.

Lemma saved_thresholds_load_back_witness :
  asThresholdConfig
    (loadThresholds parseAsDefaults
       (saveThresholds oneText DEFAULT_THRESHOLDS emptyStorage))
  = Some DEFAULT_THRESHOLDS.
Proof.
  apply (saved_thresholds_load_back parseAsDefaults oneText DEFAULT_THRESHOLDS
           emptyStorage); [reflexivity | reflexivity | discriminate | reflexivity].
Defined.

(** X9.  When the storage cannot be accessed or its quota is exceeded,
    saving thresholds still installs them for the session and empties the
    active alert set, but the storage is unchanged: loading returns what
    it returned before the save. *)
Theorem failed_save_is_not_persisted
    (JSON_parse : string -> option JsValue)
    (JSON_stringify : ThresholdConfig -> string)
    (th : ThresholdConfig) (p : Page) :
  accessible (localStorage p) = false \/ quotaExceeded (localStorage p) = true ->
  let p' := handleSaveThresholds JSON_stringify th p in
  thresholds p' = th /\
  alertedRef p' = ∅ /\
  localStorage p' = localStorage p /\
  loadThresholds JSON_parse (localStorage p')
  = loadThresholds JSON_parse (localStorage p).
Proof.
  intros Hfail p'.
  assert (Hls : localStorage p' = localStorage p).
  { unfold p', handleSaveThresholds, saveThresholds, setItem.
    cbn [clearAlerted withLocalStorage setThresholds localStorage].
    destruct Hfail as [-> | ->]; [done | by rewrite andb_false_r]. }
  split_and!; [reflexivity | reflexivity | exact Hls | by rewrite Hls].
Qed.

Lemma failed_save_is_not_persisted_witness :
  let p := initialPage DEFAULT_THRESHOLDS fullStorage in
  let p' := handleSaveThresholds oneText lowCpuLimit p in
  thresholds p' = lowCpuLimit /\ localStorage p' = fullStorage.
Proof.
  cbn zeta.
  destruct (failed_save_is_not_persisted parseAsDefaults oneText lowCpuLimit
              (initialPage DEFAULT_THRESHOLDS fullStorage)
              (or_intror eq_refl))
    as (H1 & _ & H2 & _).
  split; [exact H1 | exact H2].
Defined.

(** The decimal rendering of an index starts with a digit. *)
Lemma pretty_N_go_digit (x : N) (s : string) :
  pretty_N_go x s = s \/
  exists d rest, pretty_N_go x s = String (pretty_N_char d) rest.
Proof.
  revert s. induction (N.lt_wf_0 x) as [x _ IH]; intros s.
  assert (x = 0 \/ 0 < x)%N as [->|Hx] by lia.
  - left. apply pretty_N_go_0.
  - right. rewrite pretty_N_go_step by done.
    destruct (IH (x `div` 10)%N (N.div_lt x 10 Hx eq_refl)
                 (String (pretty_N_char (x `mod` 10)) s)) as [->|(d & rest & ->)];
      eauto.
Qed.

Lemma pretty_nat_digit (i : nat) :
  exists d rest, pretty i = String (pretty_N_char d) rest.
Proof.
  unfold pretty, pretty_nat, pretty, pretty_N. case_decide.
  - by exists 0%N, "".
  - rewrite pretty_N_go_step by lia.
    destruct (pretty_N_go_digit (N.of_nat i `div` 10)
                (String (pretty_N_char (N.of_nat i `mod` 10)) ""))
      as [->|(d & rest & ->)]; eauto.
Qed.

Lemma pretty_nat_not_threshold_key (i : nat) : pretty i ∉ thresholdKeys.
Proof.
  destruct (pretty_nat_digit i) as (d & rest & ->).
  unfold thresholdKeys. rewrite !elem_of_cons, elem_of_nil.
  unfold pretty_N_char.
  intros H. repeat case_match; naive_solver.
Qed.

Lemma index_props_lookup {A} (f : nat -> A -> string * JsValue) (l : list A) k :
  (forall i x, (f i x).1 = pretty i) ->
  k ∈ thresholdKeys ->
  (list_to_map (imap f l) : gmap string JsValue) !! k = None.
Proof.
  intros Hf Hk. apply not_elem_of_list_to_map.
  intros (kv & -> & Hin)%list_elem_of_fmap.
  apply list_elem_of_lookup in Hin as [i Hi].
  rewrite list_lookup_imap in Hi.
  destruct (l !! i) as [x|]; [|done]. injection Hi as <-.
  rewrite Hf in Hk. by apply pretty_nat_not_threshold_key in Hk.
Qed.

Lemma ownProps_not_object parsed k :
  match parsed with JObject _ => False | _ => True end ->
  k ∈ thresholdKeys -> ownProps parsed !! k = None.
Proof.
  destruct parsed; intros Hno Hk; try done; cbn [ownProps].
  - by apply index_props_lookup.
  - by apply index_props_lookup.
Qed.

(** X10.  When the stored text parses to a JSON value that is not an
    object (null, a boolean, a number, a string or an array), every
    threshold loaded is the default: the index properties that spreading
    a string or an array adds never name a threshold. *)
Theorem stored_non_object_loads_defaults
    (JSON_parse : string -> option JsValue) (ls : LocalStorage) saved parsed :
  getItem ls STORAGE_KEY = Some (Some saved) ->
  saved ≠ "" ->
  JSON_parse saved = Some parsed ->
  match parsed with JObject _ => False | _ => True end ->
  asThresholdConfig (loadThresholds JSON_parse ls) = Some DEFAULT_THRESHOLDS /\
  forall k, k ∈ thresholdKeys ->
    loadThresholds JSON_parse ls !! k = configObject DEFAULT_THRESHOLDS !! k.
Proof.
  intros Hget Hne Hparse Hno.
  assert (Hk : forall k, k ∈ thresholdKeys ->
    loadThresholds JSON_parse ls !! k = configObject DEFAULT_THRESHOLDS !! k).
  { intros k Hk. unfold loadThresholds.
    rewrite Hget, bool_decide_eq_true_2, Hparse by done.
    by rewrite spread_lookup, (ownProps_not_object _ _ Hno Hk). }
  split; [|exact Hk].
  unfold asThresholdConfig, numberProp.
  rewrite !Hk by (unfold thresholdKeys; set_solver). reflexivity.
Qed.

Lemma stored_non_object_loads_defaults_witness :
  asThresholdConfig (loadThresholds parseAsArray arrayStorage)
  = Some DEFAULT_THRESHOLDS.
Proof.
  apply (stored_non_object_loads_defaults parseAsArray arrayStorage "[1,2]"
           (JArray [JNumber 1; JNumber 2]));
    [reflexivity | discriminate | reflexivity | exact I].
Defined.

(* ====================================================================== *)
(** ** The page over its events *)
(* ====================================================================== *)

Lemma step_history JSON_stringify e p :
  historicalData (step JSON_stringify e p)
  = foldl (fun h data => updateHistoricalData data h) (historicalData p)
          (resolved JSON_stringify [e] p) /\
  metrics (step JSON_stringify e p)
  = from_option Some (metrics p) (last (resolved JSON_stringify [e] p)).
Proof.
  destruct e as [[]| | | |i [data|err]|th]; cbn [resolved step app];
    try (split; reflexivity).
  - unfold tick. destruct (interval p); split; reflexivity.
  - unfold settle. destruct (pending p !! i); split; reflexivity.
  - unfold settle. destruct (pending p !! i); split; reflexivity.
Qed.

Lemma advance_history JSON_stringify l c :
  historicalData (page (advance JSON_stringify l c))
  = foldl (fun h data => updateHistoricalData data h) (historicalData (page c))
          (published JSON_stringify [l] c) /\
  metrics (page (advance JSON_stringify l c))
  = from_option Some (metrics (page c))
      (last (published JSON_stringify [l] c)).
Proof.
  destruct c as [p u]. destruct l as [e|]; [|split; reflexivity].
  cbn [published advance page unmounted]. rewrite app_nil_r.
  destruct u.
  - destruct (reachesUnmounted e); split; reflexivity.
  - apply step_history.
Qed.

Lemma published_app JSON_stringify t1 t2 c :
  published JSON_stringify (t1 ++ t2) c
  = published JSON_stringify t1 c
    ++ published JSON_stringify t2 (live JSON_stringify t1 c).
Proof.
  revert c. induction t1 as [|l t1 IH]; intros c; [done|].
  cbn [app published live foldl]. rewrite IH, <- app_assoc. reflexivity.
Qed.

Lemma live_snoc JSON_stringify trace l c :
  live JSON_stringify (trace ++ [l]) c
  = advance JSON_stringify l (live JSON_stringify trace c).
Proof. unfold live. by rewrite foldl_app. Qed.

Lemma published_unmounted JSON_stringify trace c :
  unmounted c = true -> published JSON_stringify trace c = [].
Proof.
  revert c. induction trace as [|l trace IH]; intros c Hc; [done|].
  cbn [published]. rewrite IH.
  - destruct l; [rewrite Hc|]; reflexivity.
  - destruct l as [e|]; [|reflexivity]. unfold advance. rewrite Hc.
    by destruct (reachesUnmounted e).
Qed.

(** X11.  Whatever the page goes through from its initial state (effect
    runs and cleanups, timer ticks, retries, fetches that resolve or fail
    in any order, saved thresholds, and in the end its unmounting), the
    rolling history is the history of exactly the fetches that resolved
    while the page was mounted, in the order they resolved, the published
    metrics are those of the last of them, and the ten buffers have the
    same length, the number of those fetches capped at 60.  Once the page
    has unmounted, nothing changes the history or the metrics any more. *)
Theorem history_records_resolved_fetches JSON_stringify trace th ls :
  let c0 := mount (initialPage th ls) in
  let c := live JSON_stringify trace c0 in
  historicalData (page c) = historyAfter (published JSON_stringify trace c0) /\
  metrics (page c) = last (published JSON_stringify trace c0) /\
  Forall (fun '(buf, _) =>
            length (buf (historicalData (page c)))
            = length (published JSON_stringify trace c0) `min` 60)
         buffers /\
  forall later,
    unmounted c = true ->
    historicalData (page (live JSON_stringify later c)) = historicalData (page c) /\
    metrics (page (live JSON_stringify later c)) = metrics (page c).
Proof.
  cbn zeta. set (c0 := mount (initialPage th ls)).
  assert (Hrun : forall trace c,
    historicalData (page (live JSON_stringify trace c))
    = foldl (fun h data => updateHistoricalData data h) (historicalData (page c))
            (published JSON_stringify trace c) /\
    metrics (page (live JSON_stringify trace c))
    = from_option Some (metrics (page c))
        (last (published JSON_stringify trace c))).
  { clear. induction trace as [|l trace IH] using rev_ind; intros c; [done|].
    rewrite published_app, live_snoc.
    destruct (advance_history JSON_stringify l (live JSON_stringify trace c))
      as [Hh Hm].
    destruct (IH c) as [IHh IHm]. rewrite Hh, Hm, IHh, IHm, foldl_app.
    split; [done|]. rewrite last_app.
    by destruct (last (published JSON_stringify [l] _)). }
  destruct (Hrun trace c0) as [Hh Hm]. split_and!.
  - exact Hh.
  - rewrite Hm. by destruct (last _).
  - rewrite Hh. fold (historyAfter (published JSON_stringify trace c0)).
    unfold buffers.
    repeat (apply Forall_cons; split;
            [ match goal with |- length (?buf _) = _ =>
                unfold historyAfter;
                rewrite (buffer_run buf _ (fun _ _ => eq_refl)), pushSample_run,
                  slice_last_length, length_fmap; reflexivity
              end |]).
    apply Forall_nil_2.
  - intros later Hu. destruct (Hrun later (live JSON_stringify trace c0)) as [Hh' Hm'].
    rewrite Hh', Hm', (published_unmounted _ _ _ Hu). split; reflexivity.
Qed.

Lemma history_records_resolved_fetches_witness :
  let trace := [Happens (RunEffect true);
                Happens (FetchSettles 0 (Resolved (snapshot 50 [])));
                Happens TimerFires; Unmounts] in
  let c := live noText trace (mount (initialPage DEFAULT_THRESHOLDS emptyStorage)) in
  let late := live noText [Happens (FetchSettles 0 (Resolved (snapshot 95 [])))] c in
  unmounted c = true /\
  pending (page c) = [DEFAULT_THRESHOLDS] /\
  pending (page late) = [] /\
  historicalData (page late) = historicalData (page c) /\
  metrics (page late) = metrics (page c).
Proof.
  cbn zeta.
  destruct (history_records_resolved_fetches noText
              [Happens (RunEffect true);
               Happens (FetchSettles 0 (Resolved (snapshot 50 [])));
               Happens TimerFires; Unmounts]
              DEFAULT_THRESHOLDS emptyStorage) as (_ & _ & _ & Hlate).
  destruct (Hlate [Happens (FetchSettles 0 (Resolved (snapshot 95 [])))] eq_refl)
    as [Hh Hm].
  split_and!; [reflexivity | reflexivity | reflexivity | exact Hh | exact Hm].
Defined.

(** X12.  While the timer is not registered, and as long as the effect
    does not run and Retry is not clicked, nothing issues a fetch: over
    timer ticks, settling fetches, cleanups and saved thresholds the timer
    stays cleared and the waiting fetches only become fewer. *)
Theorem no_fetch_without_timer JSON_stringify trace p :
  interval p = false ->
  Forall (fun e => issuesFetch e = false) trace ->
  let p' := run JSON_stringify trace p in
  interval p' = false /\
  length (pending p') <= length (pending p) /\
  forall th, th ∈ pending p' -> th ∈ pending p.
Proof.
  intros Hi Htrace. cbn zeta. revert p Hi.
  induction Htrace as [|e trace He _ IH]; intros p Hi; [done|].
  cbn [run foldl]. fold (run JSON_stringify trace (step JSON_stringify e p)).
  assert (Hstep : interval (step JSON_stringify e p) = false /\
                  pending (step JSON_stringify e p) ⊆+ pending p).
  { destruct e as [b| | | |i r|th]; try discriminate He; cbn [step].
    - done.
    - unfold tick. by rewrite Hi.
    - unfold settle. destruct (pending p !! i) eqn:Hp; [|done].
      split; [by destruct r|].
      assert (pending (withPending (delete i) p) ⊆+ pending p)
        by (cbn [withPending pending]; apply sublist_submseteq, sublist_delete).
      by destruct r.
    - done. }
  destruct Hstep as [Hi' Hsub]. destruct (IH _ Hi') as (H1 & H2 & H3).
  split_and!; [done | |].
  - etrans; [exact H2|]. by apply submseteq_length.
  - intros th Hth. eapply elem_of_submseteq; [by apply H3 | done].
Qed.

Lemma no_fetch_without_timer_witness :
  let trace := [TimerFires; FetchSettles 0 (Resolved (snapshot 95 []));
                SaveThresholds lowCpuLimit; TimerFires] in
  pending (cleanup mounted) = [DEFAULT_THRESHOLDS] /\
  interval (run oneText trace (cleanup mounted)) = false /\
  length (pending (run oneText trace (cleanup mounted))) <= 1.
Proof.
  cbn zeta. split; [reflexivity|].
  assert (Htrace : Forall (fun e => issuesFetch e = false)
            [TimerFires; FetchSettles 0 (Resolved (snapshot 95 []));
             SaveThresholds lowCpuLimit; TimerFires]) by (repeat constructor).
  destruct (no_fetch_without_timer oneText _ (cleanup mounted) eq_refl Htrace)
    as (H1 & H2 & _).
  split; [exact H1 | exact H2].
Defined.

(* ====================================================================== *)
(** ** Thresholds set through the editor *)
(* ====================================================================== *)

Lemma sliderValues_sane key v : v ∈ sliderValues key -> saneLimit v = true.
Proof.
  intros Hv. apply list_elem_of_In in Hv. revert v Hv. apply forallb_forall.
  destruct key; vm_compute; reflexivity.
Qed.

Lemma defaults_on_sliders : OnSliders DEFAULT_THRESHOLDS.
Proof.
  intros key. apply list_elem_of_In.
  destruct key; vm_compute; tauto.
Qed.

Lemma getThreshold_update key value prev k :
  getThreshold (updateThreshold key value prev) k
  = if decide (k = key) then value else getThreshold prev k.
Proof. by destruct k. Qed.

(** X13.  The settings editor: from a configuration whose fields are
    values of their sliders, such as the defaults that Reset restores,
    any sequence of slider edits gives a configuration whose fields are
    values of their sliders; every evaluated threshold of it is positive
    and has its clear level [t * 0.9] and its warning level [t * 0.7] not
    above it. *)
Theorem slider_edits_keep_limits_sane (local : ThresholdConfig)
    (edits : list (ThresholdKey * Js.number)) :
  OnSliders local ->
  Forall (fun edit => edit.2 ∈ sliderValues edit.1) edits ->
  let edited := foldl (fun c edit => updateThreshold edit.1 edit.2 c) local edits in
  OnSliders edited /\
  OnSliders (handleReset edited) /\
  BandsOrdered edited /\
  Forall (fun t => saneLimit t = true) (evaluatedLimits edited).
Proof.
  intros Hlocal Hedits. cbn zeta.
  assert (Hon : OnSliders
            (foldl (fun c edit => updateThreshold edit.1 edit.2 c) local edits)).
  { revert local Hlocal. induction Hedits as [|[key v] edits Hv _ IH];
      intros local Hlocal; [done|].
    cbn [foldl]. apply IH. intros k. rewrite getThreshold_update.
    case_decide; [by subst | apply Hlocal]. }
  set (edited := foldl _ local edits) in *.
  assert (Hsane : Forall (fun t => saneLimit t = true) (evaluatedLimits edited)).
  { unfold evaluatedLimits.
    repeat (apply Forall_cons; split; [|]); [..|apply Forall_nil_2].
    - apply (sliderValues_sane key_cpu), (Hon key_cpu).
    - apply (sliderValues_sane key_memory), (Hon key_memory).
    - apply (sliderValues_sane key_swap), (Hon key_swap).
    - apply (sliderValues_sane key_gpu), (Hon key_gpu).
    - apply (sliderValues_sane key_gpuMemory), (Hon key_gpuMemory).
    - apply (sliderValues_sane key_temperature), (Hon key_temperature). }
  split_and!; [exact Hon | apply defaults_on_sliders | | exact Hsane].
  unfold BandsOrdered. eapply Forall_impl; [exact Hsane|].
  intros t Ht. unfold saneLimit in Ht.
  by apply andb_true_iff in Ht as [[_ ?]%andb_true_iff _].
Qed.

Lemma slider_edits_keep_limits_sane_witness :
  BandsOrdered (updateThreshold key_cpu 50 DEFAULT_THRESHOLDS).
Proof.
  apply (slider_edits_keep_limits_sane DEFAULT_THRESHOLDS [(key_cpu, 50%float)]
           defaults_on_sliders).
  apply Forall_cons. split; [|apply Forall_nil_2].
  apply list_elem_of_In. vm_compute. left. reflexivity.
Defined.

Lemma sliderValues_clear_level_positive key v :
  v ∈ sliderValues key -> (v * 0.9 >? 0)%float = true.
Proof.
  intros Hv. apply list_elem_of_In in Hv. revert v Hv.
  apply (forallb_forall (fun v => (v * 0.9 >? 0)%float)).
  destruct key; vm_compute; reflexivity.
Qed.

(** The hysteresis rule for a block whose two conditions are those of
    the rule. *)
Lemma rule_from_flags th data w m v b :
  blockOf th data m = Some b ->
  b_fire b = (v >=? limit th m)%float ->
  b_clear b = Js.lt v (limit th m * 0.9)%float ->
  type (b_toast b) = severity m ->
  HysteresisRule th data w m v.
Proof.
  intros Hb Hfire Hclear Hty.
  pose proof (checkThresholds_key th data w m) as Hin.
  unfold HysteresisRule, activeAfter, eventsOf, fires in *.
  rewrite Hb, Hfire, Hclear in *. split_and!.
  - intros [Hge Hk]. rewrite Hge, bool_decide_eq_true_2 in * by done.
    cbn [andb] in *. split; [by apply Hin | eauto].
  - intros [Hlt Hk].
    rewrite (bool_decide_eq_false_2 (alertKey m ∉ _)), andb_false_r in *
      by (intros Hn; by apply Hn).
    rewrite Hlt in Hin. split; [|done]. intros Hk'%Hin. done.
  - intros Hn1 Hn2.
    destruct ((v >=? limit th m)%float && bool_decide (alertKey m ∉ Fx.alerts w))
      eqn:Hf.
    { apply andb_true_iff in Hf as [? ?%bool_decide_eq_true]. by destruct Hn1. }
    split; [|done].
    destruct (Js.lt v (limit th m * 0.9)%float) eqn:Hlt.
    + rewrite Hin. split; [done|]. intros Hk. by destruct Hn2.
    + by rewrite Hin, bool_decide_eq_true.
Qed.

(** X14.  With thresholds that are values of their sliders, the
    hysteresis rule holds for every tracked metric with a current value
    that is not NaN, a temperature of zero included. *)
Theorem rule_holds_on_slider_thresholds th data w m v :
  OnSliders th ->
  m ∈ tracked data ->
  reading data m = Some v ->
  PrimFloat.is_nan v = false ->
  HysteresisRule th data w m v.
Proof.
  intros Hth Hm Hv Hnan.
  destruct (blockOf_tracked th data m Hm) as (b & Hb & Hty & Hval & Hnone).
  destruct (isTemperature m && negb (Js.truthy (Some v))) eqn:Hcase.
  - apply andb_true_iff in Hcase as [Ht Hfalsy%negb_true_iff].
    destruct (Hnone Ht) as [Hfire Hclear]; [by rewrite Hv|].
    assert (Hzero : PrimFloat.is_zero v = true).
    { cbn [Js.truthy] in Hfalsy. rewrite Hnan in Hfalsy.
      by destruct (PrimFloat.is_zero v). }
    assert (Hlim : limit th m ∈ sliderValues (limitKey m))
      by (clear -Hth; destruct m;
          [ exact (Hth key_cpu) | exact (Hth key_memory) | exact (Hth key_swap)
          | exact (Hth key_gpu) | exact (Hth key_gpuMemory)
          | exact (Hth key_temperature) ]).
    pose proof (sliderValues_sane _ _ Hlim) as Hsane.
    apply andb_true_iff in Hsane as [[Hpos _]%andb_true_iff _].
    apply (rule_from_flags th data w m v b Hb); [| |exact Hty].
    + rewrite Hfire. symmetry.
      apply lt_not_ge, zero_below_positive; done.
    + rewrite Hclear. symmetry. apply zero_below_positive; [done|].
      by eapply sliderValues_clear_level_positive.
  - apply andb_false_iff in Hcase.
    destruct (Hval v Hv) as [Hfire Hclear].
    { intros Ht. destruct Hcase as [Hc|Hc]; [congruence|].
      by apply negb_false_iff in Hc. }
    by apply (rule_from_flags th data w m v b).
Qed.

Lemma rule_holds_on_slider_thresholds_witness :
  reading freezing (Temp 0) = Some 0%float /\
  HysteresisRule DEFAULT_THRESHOLDS freezing idle (Temp 0) 0.
Proof.
  split; [reflexivity|].
  apply (rule_holds_on_slider_thresholds DEFAULT_THRESHOLDS freezing idle (Temp 0) 0
           defaults_on_sliders); [|reflexivity|reflexivity].
  apply elem_of_tracked. right; right; right. exists 0. simpl. split; [lia|tauto].
Defined.
